(** * trento-runner: the runner service, its workspace provisioner and its
      execution pipeline

    A shallow embedding of [package runner] (the service file with
    [NewRunnerService], [Start], [IsCatalogReady], [BuildCatalog],
    [createAnsibleFiles], the two runner factories and
    [startCheckRunnerTicker]).

    Modelling conventions.
    - A slash-separated path in clean form is the list of its elements;
      [path.Join] of clean paths is concatenation.
    - The file system is a finite map from paths to nodes.  The empty path
      (the root, or the working directory of a relative path) is a directory
      that always exists.
    - Everything the program does to the outside world is recorded, in
      order, in a trace of events; every outcome the program cannot decide
      itself (an I/O fault, the answer of the remote API, a playbook run, a
      cancellation that arrives during a wait, a random jitter) is answered
      by an environment that sees the whole history so far.  Quantifying
      over environments quantifies over all runs.
    - A [*Config] and a [*runnerService] are modelled by the records they
      point to; a method with a pointer receiver returns the updated record.
    - Left out: logging, file modes, and the handle that [createAnsibleFiles]
      leaves open.  Reading the embedded file system never fails for a
      reason of its own; a playbook run has no modelled effect on the file
      system. *)

From Stdlib Require Import ZArith Lia.
From stdpp Require Import base option gmap strings list fin_maps.

Open Scope string_scope.
Open Scope list_scope.

(** ** Paths, bytes and errors *)

Abbreviation path := (list string).
Abbreviation bytes := (list Byte.byte).

Inductive node : Type :=
| Dir
| File (content : bytes).

(** Go [error] values the service can see.  [PathError op p] is the
    [*fs.PathError] of package [os] and of the embedded file system. *)
Inductive error : Type :=
| PathError (op : string) (p : path)
| ErrServerNotAvailable            (* "Trento server api not available" *)
| ErrContext                       (* ctx.Err() *)
| ErrPlaybook (playbook : path)    (* a failed playbook run *)
| ErrInventoryContent              (* topology fetch failed *)
| ErrInventoryFile (p : path).     (* inventory file could not be written *)

(** ** Configuration and runner handles *)

(** Modelled from the spec: the [Config] struct is declared outside the
    service file; the service reads [ApiHost], [ApiPort], [AnsibleFolder]
    and [Interval] from it. *)
Record Config : Type := mkConfig {
  ApiHost : string;
  ApiPort : Z;
  AnsibleFolder : path;
  Interval : Z
}.

(** Modelled from the spec: the execution-engine handle [AnsibleRunner] is
    declared outside the service file.  It is configured with a playbook
    path, a config file path, an optional inventory path, a check-mode flag,
    the API host and port and, for the meta variant, a catalog destination. *)
Record AnsibleRunner : Type := mkAnsibleRunner {
  Playbook : option path;
  ConfigFile : option path;
  Inventory : option path;
  Check : bool;
  CatalogDestination : option path;
  TrentoApiData : option (string * Z)
}.

(** Modelled from the spec: the type [api.TrentoApiService] is declared
    outside the service file; the handle is built from a host and a port. *)
Record TrentoApiService : Type := mkTrentoApi {
  apiHost : string;
  apiPort : Z
}.

Record runnerService : Type := mkRunnerService {
  config : Config;
  trentoApi : option TrentoApiService;
  ready : bool
}.

(** ** Events, environments and worlds *)

Inductive Call : Type :=
| CRemoveAll (p : path)
| CMkdirAll (p : path)
| CMkdir (p : path)
| CCreate (p : path)
| CWrite (p : path) (content : bytes)
| CSetPlaybook (p : path)
| CSetInventory (p : path)
| CRunPlaybook (r : AnsibleRunner)
| CIsWebServerUp (a : TrentoApiService)
| COnRetry (n : nat) (e : error)
| CRetryWait (n : nat) (d : Z)
| CNewClusterInventoryContent (a : option TrentoApiService)
| CCreateInventory (p : path) (content : bytes)
| CContextErr
| CGo
| CTickerWait (interval : Z)
| CWgDone.

(** An event is a call together with whether it succeeded. *)
Abbreviation Event := (Call * bool)%type.

Record Env : Type := mkEnv {
  (** [fails h c]: after history [h], call [c] fails for a reason outside
      the program (I/O fault, server down, playbook failed; for a wait:
      the context is cancelled before the timer fires). *)
  fails : list Event -> Call -> bool;
  (** the value drawn by [rand.Int63n] after history [h], before reduction *)
  rand : list Event -> Z;
  (** the inventory content rendered from the topology fetched after [h] *)
  topology : list Event -> bytes
}.

Record World : Type := mkWorld {
  fsys : gmap path node;
  trace : list Event
}.

(** ** The embedded template tree *)

#[warnings="-register-all"]
Inductive tnode : Type :=
| TFile (content : bytes)
| TDir (entries : list (string * tnode)).

Definition node_of (n : tnode) : node :=
  match n with
  | TFile c => File c
  | TDir _ => Dir
  end.

Fixpoint assoc (x : string) (es : list (string * tnode)) : option tnode :=
  match es with
  | [] => None
  | (y, n) :: es' => if decide (x = y) then Some n else assoc x es'
  end.

(** Path lookup in an embedded tree, from its root. *)
Fixpoint tlookup (n : tnode) (p : path) : option tnode :=
  match p with
  | [] => Some n
  | x :: p' =>
      match n with
      | TFile _ => None
      | TDir es =>
          match assoc x es with
          | Some ch => tlookup ch p'
          | None => None
          end
      end
  end.

(** Names are unique inside every directory, as in any file system. *)
Fixpoint wf_tnode (n : tnode) : Prop :=
  match n with
  | TFile _ => True
  | TDir es =>
      NoDup (map fst es) /\
      (fix all (es : list (string * tnode)) : Prop :=
         match es with
         | [] => True
         | (_, ch) :: es' => wf_tnode ch /\ all es'
         end) es
  end.

(** ** Constants of the package *)

Definition AnsibleMain : path := ["ansible"; "check.yml"].
Definition AnsibleMeta : path := ["ansible"; "meta.yml"].
Definition AnsibleConfigFile : path := ["ansible"; "ansible.cfg"].
Definition AnsibleHostFile : path := ["ansible"; "ansible_hosts"].
Definition CatalogDestinationFile : path := ["ansible"; "catalog.json"].

(** [time.Duration] counts nanoseconds. *)
Definition Second : Z := 1000000000.

(** ** The state monad of the embedding *)

Definition M (A : Type) : Type := World -> A * World.

Definition ret {A} (a : A) : M A := fun w => (a, w).

Definition bind {A B} (m : M A) (k : A -> M B) : M B :=
  fun w => let (a, w') := m w in k a w'.

Declare Scope go_scope.
Delimit Scope go_scope with go.
Notation "x <- m ;; k" := (bind m (fun x => k))
  (at level 100, m at next level, right associativity) : go_scope.
Notation "m ;;; k" := (bind m (fun _ => k))
  (at level 100, right associativity) : go_scope.
Open Scope go_scope.

Definition emit (c : Call) (ok : bool) : M unit :=
  fun w => (tt, mkWorld (fsys w) (trace w ++ [(c, ok)])).

(** Outcome of a computation that may still be running when the fuel of
    its scheduler is used up. *)
Inductive outcome (A : Type) : Type :=
| Returned (a : A)
| Running.
Arguments Returned {A} a.
Arguments Running {A}.

(** ** File-system primitives (package [os]) *)

Definition parent (p : path) : path := removelast p.

Definition is_dir (fs : gmap path node) (p : path) : bool :=
  match p with
  | [] => true
  | _ => match fs !! p with Some Dir => true | _ => false end
  end.

Definition is_file (fs : gmap path node) (p : path) : bool :=
  match fs !! p with Some (File _) => true | _ => false end.

Definition exists_path (fs : gmap path node) (p : path) : bool :=
  match p with
  | [] => true
  | _ => match fs !! p with Some _ => true | None => false end
  end.

Definition nonempty (p : path) : bool :=
  match p with [] => false | _ => true end.

(** [os.RemoveAll]: the path and everything below it disappear. *)
Definition remove_all (p : path) (fs : gmap path node) : gmap path node :=
  filter (fun kv => ~ p `prefix_of` kv.1) fs.

(** [os.MkdirAll]: create every missing directory along [rest], starting
    below [pre]; impossible when an element of the path is a file. *)
Fixpoint mkdir_all (fs : gmap path node) (pre rest : path)
  : option (gmap path node) :=
  match rest with
  | [] => Some fs
  | x :: rest' =>
      let p := pre ++ [x] in
      match fs !! p with
      | Some (File _) => None
      | Some Dir => mkdir_all fs p rest'
      | None => mkdir_all (<[p := Dir]> fs) p rest'
      end
  end.

(** ** Sample data: a template, a configuration and some environments *)

Module Sample.

Definition b (s : string) : bytes := String.list_byte_of_string s.

Definition template : tnode :=
  TDir [("ansible",
         TDir [("ansible.cfg", TFile (b "[defaults]"));
               ("check.yml", TFile (b "- hosts: all"));
               ("meta.yml", TFile (b "- hosts: localhost"));
               ("roles",
                TDir [("checks", TDir [("main.yml", TFile (b "---"))])])])].

Definition cfg : Config :=
  mkConfig "localhost" 8000 ["srv"; "trento"] (300 * Second)%Z.

(** Nothing ever fails and the context is never cancelled. *)
Definition calm : Env :=
  mkEnv (fun _ _ => false) (fun _ => 0%Z) (fun _ => b "[all]").

(** Writing [meta.yml] fails (say, the disk is full); all else is fine. *)
Definition diskFull : Env :=
  mkEnv (fun _ c =>
           match c with
           | CWrite p _ => bool_decide (p = ["srv"; "trento"; "ansible"; "meta.yml"])
           | _ => false
           end)
        (fun _ => 0%Z) (fun _ => b "[all]").


(** The web server never answers. *)
Definition serverDown : Env :=
  mkEnv (fun _ c => match c with CIsWebServerUp _ => true | _ => false end)
        (fun _ => 0%Z) (fun _ => b "[all]").


(** Only the runs in check mode fail. *)
Definition checksFail : Env :=
  mkEnv (fun _ c => match c with CRunPlaybook r => Check r | _ => false end)
        (fun _ => 0%Z) (fun _ => b "[all]").

(** A playbook run fails once some playbook has already run successfully. *)
Definition flaky : Env :=
  mkEnv (fun h c =>
           match c with
           | CRunPlaybook _ =>
               existsb (fun e => match e with
                                 | (CRunPlaybook _, true) => true
                                 | _ => false
                                 end) h
           | _ => false
           end)
        (fun _ => 0%Z) (fun _ => b "[all]").

Definition empty : World := mkWorld ∅ [].

(** A workspace left over by an earlier version: a stale playbook, a file
    where a directory is expected, an extra file. *)
Definition stale : World :=
  mkWorld
    (list_to_map
       [(["srv"], Dir); (["srv"; "trento"], Dir);
        (["srv"; "trento"; "ansible"], Dir);
        (["srv"; "trento"; "ansible"; "meta.yml"], File (b "old"));
        (["srv"; "trento"; "ansible"; "roles"], File (b "oops"));
        (["srv"; "trento"; "ansible"; "extra.yml"], File (b "extra"))])
    [].

End Sample.

(** Further scenarios: templates that lack a playbook, a fault in the
    middle of the copy, and a workspace with neighbours. *)
Module Scenario.

(** A template with the engine configuration only. *)
Definition noPlaybooks : tnode :=
  TDir [("ansible", TDir [("ansible.cfg", TFile (Sample.b "[defaults]"))])].

(** Creating [check.yml] fails; all else is fine. *)
Definition createFails : Env :=
  mkEnv (fun _ c =>
           match c with
           | CCreate p => bool_decide (p = ["srv"; "trento"; "ansible"; "check.yml"])
           | _ => false
           end)
        (fun _ => 0%Z) (fun _ => Sample.b "[all]").

(** The web server is down and every jitter is two seconds. *)
Definition serverDownJitter : Env :=
  mkEnv (fun _ c => match c with CIsWebServerUp _ => true | _ => false end)
        (fun _ => (2 * Second)%Z) (fun _ => Sample.b "[all]").

(** The context is cancelled during the second wait of the ticker. *)
Definition cancelledLater : Env :=
  mkEnv (fun h c =>
           match c with
           | CTickerWait _ =>
               existsb (fun e => match e with
                                 | (CTickerWait _, _) => true
                                 | _ => false
                                 end) h
           | _ => false
           end)
        (fun _ => 0%Z) (fun _ => Sample.b "[all]").

(** A stale workspace next to files that are none of its business. *)
Definition busy : World :=
  mkWorld
    (list_to_map
       [(["etc"], Dir); (["etc"; "hosts"], File (Sample.b "127.0.0.1"));
        (["srv"], Dir); (["srv"; "notes.txt"], File (Sample.b "keep"));
        (["srv"; "trento"], Dir);
        (["srv"; "trento"; "ansible.bak"], File (Sample.b "backup"));
        (["srv"; "trento"; "ansible"], Dir);
        (["srv"; "trento"; "ansible"; "meta.yml"], File (Sample.b "old"));
        (["srv"; "trento"; "ansible"; "extra.yml"], File (Sample.b "extra"))])
    [].

End Scenario.

Section Runner.

(** The environment of the run and the tree embedded by [//go:embed ansible]
    (seen from the root of the embedded file system). *)
Variable env : Env.
Variable ansibleFS : tnode.

(** A call to the outside: it succeeds when the file system allows it and
    the environment does not make it fail; only then it has its effect.
    The outcome is recorded. *)
Definition attempt (c : Call) (possible : gmap path node -> bool)
    (effect : gmap path node -> gmap path node) : M bool :=
  fun w =>
    let ok := possible (fsys w) && negb (fails env (trace w) c) in
    (ok, mkWorld (if ok then effect (fsys w) else fsys w)
                 (trace w ++ [(c, ok)])).

(** A call whose outcome the file system alone decides. *)
Definition inspect (c : Call) (holds : gmap path node -> bool) : M bool :=
  fun w => (holds (fsys w), mkWorld (fsys w) (trace w ++ [(c, holds (fsys w))])).

Definition errorIf (ok : bool) (e : error) : option error :=
  if ok then None else Some e.

Definition os_RemoveAll (p : path) : M (option error) :=
  ok <- attempt (CRemoveAll p) (fun _ => true) (remove_all p);;
  ret (errorIf ok (PathError "unlinkat" p)).

Definition os_MkdirAll (p : path) : M (option error) :=
  ok <- attempt (CMkdirAll p)
          (fun fs => bool_decide (is_Some (mkdir_all fs [] p)))
          (fun fs => default fs (mkdir_all fs [] p));;
  ret (errorIf ok (PathError "mkdir" p)).

Definition os_Mkdir (p : path) : M (option error) :=
  ok <- attempt (CMkdir p)
          (fun fs => nonempty p && negb (exists_path fs p) && is_dir fs (parent p))
          (fun fs => <[p := Dir]> fs);;
  ret (errorIf ok (PathError "mkdir" p)).

(** [os.Create]: create or truncate; the handle is the path. *)
Definition os_Create (p : path) : M (option error) :=
  ok <- attempt (CCreate p)
          (fun fs => nonempty p && negb (is_dir fs p) && is_dir fs (parent p))
          (fun fs => <[p := File []]> fs);;
  ret (errorIf ok (PathError "open" p)).

(** [fmt.Fprintf(f, "%s", content)] on a freshly created file: the bytes of
    [content] become the content of the file, or, on a write error, nothing
    reaches the file. *)
Definition fmt_Fprintf (f : path) (content : bytes) : M (option error) :=
  ok <- attempt (CWrite f content) (fun fs => is_file fs f)
          (fun fs => <[f := File content]> fs);;
  ret (errorIf ok (PathError "write" f)).

(** ** The embedded file system (packages [embed] and [io/fs]) *)

Definition embed_ReadFile (p : path) : bytes + error :=
  match tlookup ansibleFS p with
  | Some (TFile c) => inl c
  | Some (TDir _) => inr (PathError "read" p)
  | None => inr (PathError "open" p)
  end.

(** The arguments of a [fs.WalkDirFunc]: the name, the entry ([None] for a
    nil entry, otherwise whether it is a directory) and the incoming error. *)
Definition WalkDirFunc : Type :=
  path -> option bool -> option error -> M (option error).

Fixpoint walkDir (fn : WalkDirFunc) (name : path) (n : tnode)
  : M (option error) :=
  match n with
  | TFile _ => fn name (Some false) None
  | TDir es =>
      err <- fn name (Some true) None;;
      match err with
      | Some e => ret (Some e)
      | None =>
          (fix range (es : list (string * tnode)) : M (option error) :=
             match es with
             | [] => ret None
             | (d1, ch) :: es' =>
                 err <- walkDir fn (name ++ [d1]) ch;;
                 match err with
                 | Some e => ret (Some e)
                 | None => range es'
                 end
             end) es
      end
  end.

(** The loop over the entries of a directory inside [walkDir]. *)
Fixpoint walkEntries (fn : WalkDirFunc) (name : path)
    (es : list (string * tnode)) : M (option error) :=
  match es with
  | [] => ret None
  | (d1, ch) :: es' =>
      err <- walkDir fn (name ++ [d1]) ch;;
      match err with
      | Some e => ret (Some e)
      | None => walkEntries fn name es'
      end
  end.

Definition fs_WalkDir (root : path) (fn : WalkDirFunc) : M (option error) :=
  match tlookup ansibleFS root with
  | None => fn root None (Some (PathError "stat" root))
  | Some n => walkDir fn root n
  end.

(** ** [createAnsibleFiles] *)

(** The function literal passed to [fs.WalkDir]. *)
Definition copyEntry (folder : path) : WalkDirFunc :=
  fun fileName dir err =>
    match err with
    | Some e => ret (Some e)
    | None =>
        if negb (default false dir) then
          match embed_ReadFile fileName with
          | inr e => ret (Some e)
          | inl content =>
              err <- os_Create (folder ++ fileName);;
              match err with
              | Some e => ret (Some e)
              | None =>
                  _ <- fmt_Fprintf (folder ++ fileName) content;;
                  ret None
              end
          end
        else
          _ <- os_Mkdir (folder ++ fileName);;
          ret None
    end.

Definition createAnsibleFiles (folder : path) : M (option error) :=
  let ansibleFolder := folder ++ ["ansible"] in
  err <- os_RemoveAll ansibleFolder;;
  match err with
  | Some e => ret (Some e)
  | None =>
      err <- os_MkdirAll ansibleFolder;;
      match err with
      | Some e => ret (Some e)
      | None =>
          err <- fs_WalkDir ["ansible"] (copyEntry folder);;
          match err with
          | Some e => ret (Some e)
          | None => ret None
          end
      end
  end.

(** ** The execution-engine handle *)

(** Modelled from the spec: [DefaultAnsibleRunner] is declared outside the
    service file.  A fresh handle has nothing bound: no inventory, check
    mode off. *)
Definition DefaultAnsibleRunner : AnsibleRunner :=
  mkAnsibleRunner None None None false None None.

(** Modelled from the spec: [SetPlaybook] is declared outside the service
    file.  It validates the playbook path against the workspace and fails
    when the path does not exist; otherwise it binds the path. *)
Definition SetPlaybook (a : AnsibleRunner) (playbook : path)
  : M (AnsibleRunner * option error) :=
  ok <- inspect (CSetPlaybook playbook) (fun fs => exists_path fs playbook);;
  if ok
  then ret (mkAnsibleRunner (Some playbook) (ConfigFile a) (Inventory a)
              (Check a) (CatalogDestination a) (TrentoApiData a), None)
  else ret (a, Some (PathError "stat" playbook)).

(** Modelled from the spec: [SetInventory] is declared outside the service
    file.  It binds the inventory path, or fails when the path does not
    exist. *)
Definition SetInventory (a : AnsibleRunner) (inventory : path)
  : M (AnsibleRunner * option error) :=
  ok <- inspect (CSetInventory inventory) (fun fs => exists_path fs inventory);;
  if ok
  then ret (mkAnsibleRunner (Playbook a) (ConfigFile a) (Some inventory)
              (Check a) (CatalogDestination a) (TrentoApiData a), None)
  else ret (a, Some (PathError "stat" inventory)).

(** Modelled from the spec: [SetConfigFile] is declared outside the
    service file.  It binds the config file path. *)
Definition SetConfigFile (a : AnsibleRunner) (confFile : path) : AnsibleRunner :=
  mkAnsibleRunner (Playbook a) (Some confFile) (Inventory a) (Check a)
    (CatalogDestination a) (TrentoApiData a).

(** Modelled from the spec: [SetCatalogDestination] is declared outside
    the service file.  It binds the catalog output destination. *)
Definition SetCatalogDestination (a : AnsibleRunner) (destination : path)
  : AnsibleRunner :=
  mkAnsibleRunner (Playbook a) (ConfigFile a) (Inventory a) (Check a)
    (Some destination) (TrentoApiData a).

(** Modelled from the spec: [SetTrentoApiData] is declared outside the
    service file.  It binds the API host and port. *)
Definition SetTrentoApiData (a : AnsibleRunner) (host : string) (port : Z)
  : AnsibleRunner :=
  mkAnsibleRunner (Playbook a) (ConfigFile a) (Inventory a) (Check a)
    (CatalogDestination a) (Some (host, port)).

(** The assignment [ansibleRunner.Check = b]. *)
Definition SetCheck (a : AnsibleRunner) (b : bool) : AnsibleRunner :=
  mkAnsibleRunner (Playbook a) (ConfigFile a) (Inventory a) b
    (CatalogDestination a) (TrentoApiData a).

(** Modelled from the spec: [RunPlaybook] is declared outside the service
    file.  It hands the handle to the execution engine and returns success
    or failure. *)
Definition RunPlaybook (a : AnsibleRunner) : M (option error) :=
  ok <- attempt (CRunPlaybook a) (fun _ => true) (fun fs => fs);;
  ret (errorIf ok (ErrPlaybook (default [] (Playbook a)))).

(** ** The runner factories *)

Definition NewAnsibleMetaRunner (config : Config)
  : M (AnsibleRunner * option error) :=
  let playbookPath := AnsibleFolder config ++ AnsibleMeta in
  let ansibleRunner := DefaultAnsibleRunner in
  r <- SetPlaybook ansibleRunner playbookPath;;
  match r with
  | (ansibleRunner, Some e) => ret (ansibleRunner, Some e)
  | (ansibleRunner, None) =>
      let configFile := AnsibleFolder config ++ AnsibleConfigFile in
      let ansibleRunner := SetConfigFile ansibleRunner configFile in
      let destination := AnsibleFolder config ++ CatalogDestinationFile in
      let ansibleRunner := SetCatalogDestination ansibleRunner destination in
      ret (ansibleRunner, None)
  end.

Definition NewAnsibleCheckRunner (config : Config)
  : M (AnsibleRunner * option error) :=
  let playbookPath := AnsibleFolder config ++ AnsibleMain in
  let ansibleRunner := DefaultAnsibleRunner in
  r <- SetPlaybook ansibleRunner playbookPath;;
  match r with
  | (ansibleRunner, Some e) => ret (ansibleRunner, Some e)
  | (ansibleRunner, None) =>
      let ansibleRunner := SetCheck ansibleRunner true in
      let configFile := AnsibleFolder config ++ AnsibleConfigFile in
      let ansibleRunner := SetConfigFile ansibleRunner configFile in
      let ansibleRunner :=
        SetTrentoApiData ansibleRunner (ApiHost config) (ApiPort config) in
      ret (ansibleRunner, None)
  end.

(** ** The service: construction, readiness, catalog build *)

Definition NewRunnerService (config : Config) : runnerService * option error :=
  let runner := mkRunnerService config None false in
  (runner, None).

Definition IsCatalogReady (c : runnerService) : bool := ready c.

Definition setReady (c : runnerService) (b : bool) : runnerService :=
  mkRunnerService (config c) (trentoApi c) b.

Definition setTrentoApi (c : runnerService) (a : option TrentoApiService)
  : runnerService :=
  mkRunnerService (config c) a (ready c).

Definition BuildCatalog (c : runnerService) : M (runnerService * option error) :=
  err <- createAnsibleFiles (AnsibleFolder (config c));;
  match err with
  | Some e => ret (c, Some e)
  | None =>
      r <- NewAnsibleMetaRunner (config c);;
      match r with
      | (_, Some e) => ret (c, Some e)
      | (metaRunner, None) =>
          err <- RunPlaybook metaRunner;;
          match err with
          | Some e => ret (c, Some e)
          | None => ret (setReady c true, None)
          end
      end
  end.

(** ** Retrying (package [retry-go], as [Start] configures it) *)

(** The options [Start] passes: [Attempts], [Delay], [MaxJitter]; it also
    passes [LastErrorOnly(true)] and its context, which the model of [Do]
    below has built in. *)
Record RetryConfig : Type := mkRetryConfig {
  attempts : nat;
  delay : Z;
  maxJitter : Z
}.

(** The default delay type: back-off of the base delay combined with a
    random delay below the jitter bound. *)
Definition BackOffDelay (cfg : RetryConfig) (n : nat) : Z :=
  Z.shiftl (delay cfg) (Z.of_nat n).

Definition RandomDelay (cfg : RetryConfig) (r : Z) : Z :=
  (r mod maxJitter cfg)%Z.

Definition delayType (cfg : RetryConfig) (n : nat) : M Z :=
  fun w => ((BackOffDelay cfg n + RandomDelay cfg (rand env (trace w)))%Z, w).

(** The loop of [retry.Do]: [n] attempts were made, [remaining] are left.
    A failed attempt is reported to [OnRetry]; after the last one the loop
    ends without waiting; otherwise it waits for the delay or for the
    cancellation of the context, whichever comes first.  With
    [LastErrorOnly] the result is the error of the last attempt, or the
    error of the context.  The retried function may update captured
    variables, of type [T]. *)
Fixpoint retryLoop {T} (cfg : RetryConfig) (fn : T -> M (T * option error))
    (n remaining : nat) (s : T) (lastErr : option error)
  : M (T * option error) :=
  match remaining with
  | O => ret (s, lastErr)
  | S remaining' =>
      r <- fn s;;
      match r with
      | (s, None) => ret (s, None)
      | (s, Some e) =>
          _ <- emit (COnRetry n e) true;;
          match remaining' with
          | O => ret (s, Some e)
          | S _ =>
              d <- delayType cfg n;;
              fired <- attempt (CRetryWait n d) (fun _ => true) (fun fs => fs);;
              if fired
              then retryLoop cfg fn (S n) remaining' s (Some e)
              else ret (s, Some ErrContext)
          end
      end
  end.

Definition retry_Do {T} (cfg : RetryConfig) (fn : T -> M (T * option error))
    (s : T) : M (T * option error) :=
  alive <- attempt CContextErr (fun _ => true) (fun fs => fs);;
  if alive
  then retryLoop cfg fn 0 (attempts cfg) s None
  else ret (s, Some ErrContext).

(** ** The remote API *)

(** Modelled from the spec: [api.NewTrentoApiService] is declared outside
    the service file.  It builds the handle on the remote API. *)
Definition NewTrentoApiService (host : string) (port : Z) : TrentoApiService :=
  mkTrentoApi host port.

(** Modelled from the spec: [IsWebServerUp] is declared outside the
    service file.  It is the liveness probe, without side effects. *)
Definition IsWebServerUp (a : TrentoApiService) : M bool :=
  attempt (CIsWebServerUp a) (fun _ => true) (fun fs => fs).

(** ** The execution pipeline *)

(** Modelled from the spec: [NewClusterInventoryContent] is declared
    outside the service file; it fetches the current fleet topology from
    the remote API and yields the inventory content, or fails. *)
Definition NewClusterInventoryContent (a : option TrentoApiService)
  : M (bytes * option error) :=
  content <- (fun w => (topology env (trace w), w));;
  ok <- attempt (CNewClusterInventoryContent a) (fun _ => true) (fun fs => fs);;
  if ok then ret (content, None) else ret ([], Some ErrInventoryContent).

(** Modelled from the spec: [CreateInventory] is declared outside the
    service file; it renders the content and writes it to the given path,
    overwriting any previous content, or fails. *)
Definition CreateInventory (destination : path) (content : bytes)
  : M (option error) :=
  ok <- attempt (CCreateInventory destination content)
          (fun fs => nonempty destination && negb (is_dir fs destination)
                     && is_dir fs (parent destination))
          (fun fs => <[destination := File content]> fs);;
  ret (errorIf ok (ErrInventoryFile destination)).

(** The function literal [tick] of [startCheckRunnerTicker].  It captures
    the service [c] and the two runners; [SetInventory] updates the check
    runner, which lives across ticks. *)
Definition tick (metaRunner : AnsibleRunner)
    (st : runnerService * AnsibleRunner) : M (runnerService * AnsibleRunner) :=
  let (c, checkRunner) := st in
  err <- RunPlaybook metaRunner;;
  match err with
  | Some _ => ret (c, checkRunner)
  | None =>
      r <- NewClusterInventoryContent (trentoApi c);;
      match r with
      | (_, Some _) => ret (c, checkRunner)
      | (content, None) =>
          let inventoryFile := AnsibleFolder (config c) ++ AnsibleHostFile in
          err <- CreateInventory inventoryFile content;;
          match err with
          | Some _ => ret (c, checkRunner)
          | None =>
              r <- SetInventory checkRunner inventoryFile;;
              match r with
              | (checkRunner, Some _) => ret (c, checkRunner)
              | (checkRunner, None) =>
                  _ <- RunPlaybook checkRunner;;
                  ret (c, checkRunner)
              end
          end
      end
  end.

(** Modelled from the spec: [internal.Repeat] is declared outside the
    service file; it is the scheduling primitive that invokes a callback on
    a fixed interval until cancelled.  Each round waits for the ticker or
    for the cancellation of the context; [fuel] bounds the rounds observed. *)
Fixpoint Repeat {T} (fuel : nat) (tick : T -> M T) (interval : Z) (s : T)
  : M (T * outcome unit) :=
  match fuel with
  | O => ret (s, Running)
  | S fuel' =>
      fired <- attempt (CTickerWait interval) (fun _ => true) (fun fs => fs);;
      if fired
      then s' <- tick s;; Repeat fuel' tick interval s'
      else ret (s, Returned tt)
  end.

Definition startCheckRunnerTicker (fuel : nat) (c : runnerService)
  : M (runnerService * outcome unit) :=
  r <- NewAnsibleCheckRunner (config c);;
  match r with
  | (_, Some _) => ret (c, Returned tt)
  | (checkRunner, None) =>
      r <- NewAnsibleMetaRunner (config c);;
      match r with
      | (_, Some _) => ret (c, Returned tt)
      | (metaRunner, None) =>
          let interval := Interval (config c) in
          r <- Repeat fuel (tick metaRunner) interval (c, checkRunner);;
          match r with
          | ((c, _), o) => ret (c, o)
          end
      end
  end.

(** ** [Start] *)

Definition startRetryConfig : RetryConfig :=
  mkRetryConfig 8 (2 * Second)%Z (3 * Second)%Z.

(** The function retried by [Start]; it assigns the captured [trentoApi]. *)
Definition probe (c : runnerService) (_ : option TrentoApiService)
  : M (option TrentoApiService * option error) :=
  let trentoApi := NewTrentoApiService (ApiHost (config c)) (ApiPort (config c)) in
  up <- IsWebServerUp trentoApi;;
  if negb up
  then ret (Some trentoApi, Some ErrServerNotAvailable)
  else ret (Some trentoApi, None).

(** The goroutine started by [Start] is joined at once through the wait
    group, so its body runs as a call between the events [CGo] and
    [CWgDone].  [Running] means that the loop had not stopped when the fuel
    was used up: [Start] has not returned. *)
Definition Start (fuel : nat) (c : runnerService)
  : M (runnerService * outcome (option error)) :=
  err <- createAnsibleFiles (AnsibleFolder (config c));;
  match err with
  | Some e => ret (c, Returned (Some e))
  | None =>
      r <- retry_Do startRetryConfig (probe c) None;;
      match r with
      | (_, Some e) => ret (c, Returned (Some e))
      | (trentoApi, None) =>
          let c := setTrentoApi c trentoApi in
          _ <- emit CGo true;;
          r <- startCheckRunnerTicker fuel c;;
          match r with
          | (c, Running) => ret (c, Running)
          | (c, Returned _) =>
              _ <- emit CWgDone true;;
              ret (c, Returned None)
          end
      end
  end.

(** ** Sequences of operations on one service *)

(** The operations a caller can issue on the service, and one round of the
    pipeline with the runners the loop holds. *)
Inductive Op : Type :=
| OpIsCatalogReady
| OpBuildCatalog
| OpStart (fuel : nat)
| OpTick (metaRunner checkRunner : AnsibleRunner).

Inductive Result : Type :=
| RBool (b : bool)
| RError (e : option error)
| RStart (o : outcome (option error))
| RTick.

Definition isBuildCatalog (op : Op) : bool :=
  match op with OpBuildCatalog => true | _ => false end.

Definition applyOp (op : Op) (c : runnerService) : M (runnerService * Result) :=
  match op with
  | OpIsCatalogReady => ret (c, RBool (IsCatalogReady c))
  | OpBuildCatalog =>
      r <- BuildCatalog c;;
      ret (r.1, RError r.2)
  | OpStart fuel =>
      r <- Start fuel c;;
      ret (r.1, RStart r.2)
  | OpTick metaRunner checkRunner =>
      r <- tick metaRunner (c, checkRunner);;
      ret (r.1, RTick)
  end.

Fixpoint runOps (ops : list Op) (c : runnerService)
  : M (runnerService * list Result) :=
  match ops with
  | [] => ret (c, [])
  | op :: ops' =>
      r <- applyOp op c;;
      rs <- runOps ops' r.1;;
      ret (rs.1, r.2 :: rs.2)
  end.

(** ** Vocabulary for statements about traces *)

(** [emits P m]: running [m] only appends events, all with a call in [P]. *)
Definition emits {A} (P : Call -> Prop) (m : M A) : Prop :=
  forall w, exists evs, trace (m w).2 = trace w ++ evs /\ Forall (fun e => P e.1) evs.

(** Calls of package [os]. *)
Definition fsCall (c : Call) : bool :=
  match c with
  | CRemoveAll _ | CMkdirAll _ | CMkdir _ | CCreate _ | CWrite _ _ => true
  | _ => false
  end.

(** Counting the events of a kind. *)
Fixpoint countb (f : Event -> bool) (evs : list Event) : nat :=
  match evs with
  | [] => 0
  | e :: evs' => (if f e then 1 else 0) + countb f evs'
  end.

Definition probeOk (e : Event) : bool :=
  match e with (CIsWebServerUp _, true) => true | _ => false end.

Definition probeFailed (e : Event) : bool :=
  match e with (CIsWebServerUp _, false) => true | _ => false end.

Definition isProbe (e : Event) : bool :=
  match e with (CIsWebServerUp _, _) => true | _ => false end.

(** The context was found cancelled, at the start or during a wait. *)
Definition sawCancel (e : Event) : bool :=
  match e with
  | (CRetryWait _ _, false) | (CContextErr, false) => true
  | _ => false
  end.

Definition isGo (e : Event) : bool :=
  match e with (CGo, _) => true | _ => false end.

(** Calls made while retrying the liveness probe: the wait after attempt
    [k] lasts the base delay backed off [k] times plus a jitter below the
    bound. *)
Definition retryCall (cfg : RetryConfig) (hi : nat) (c : Call) : Prop :=
  match c with
  | CIsWebServerUp _ | COnRetry _ _ | CContextErr => True
  | CRetryWait k d =>
      S k < hi /\
      (delay cfg * 2 ^ Z.of_nat k <= d < delay cfg * 2 ^ Z.of_nat k + maxJitter cfg)%Z
  | _ => False
  end.

(** Calls made by the scheduling loop. *)
Definition loopCall (c : Call) : Prop :=
  match c with
  | CSetPlaybook _ | CSetInventory _ | CRunPlaybook _
  | CNewClusterInventoryContent _ | CCreateInventory _ _ | CTickerWait _ => True
  | _ => False
  end.


(** The events added on the way from world [w] to world [w']. *)
Definition since (w w' : World) : list Event :=
  drop (length (trace w)) (trace w').

(** What a successful copy may leave at a destination path, given what the
    template has there: nothing where the template has nothing; for a file
    its bytes, or an empty file when the write failed; for a directory the
    directory, or nothing when the mkdir failed. *)
Definition copied (n : option tnode) (o : option node) : Prop :=
  match n with
  | None => o = None
  | Some (TFile c) => o = Some (File c) \/ o = Some (File [])
  | Some (TDir _) => o = Some Dir \/ o = None
  end.

(** Calls made after a successful probe: the goroutine, from its start to
    its end. *)
Definition lateCall (c : Call) : Prop :=
  match c with
  | CGo | CWgDone => True
  | _ => loopCall c
  end.

(** The time [retry.Do] set out to wait, over all its waits. *)
Fixpoint waitTotal (evs : list Event) : Z :=
  match evs with
  | [] => 0
  | (CRetryWait _ d, _) :: evs' => d + waitTotal evs'
  | _ :: evs' => waitTotal evs'
  end.

(** The longest, and the shortest, that [m] waits can last together when
    the first comes after attempt [n]. *)
Fixpoint backoffMax (cfg : RetryConfig) (n m : nat) : Z :=
  match m with
  | O => 0
  | S m' => (delay cfg * 2 ^ Z.of_nat n + maxJitter cfg - 1) + backoffMax cfg (S n) m'
  end.

Fixpoint backoffMin (cfg : RetryConfig) (n m : nat) : Z :=
  match m with
  | O => 0
  | S m' => delay cfg * 2 ^ Z.of_nat n + backoffMin cfg (S n) m'
  end.

(** Runs of the meta playbook, runs in check mode, ticker waits that fired. *)
Definition metaRun (e : Event) : bool :=
  match e with (CRunPlaybook a, _) => negb (Check a) | _ => false end.

Definition checkRun (e : Event) : bool :=
  match e with (CRunPlaybook a, _) => Check a | _ => false end.

Definition tickFired (e : Event) : bool :=
  match e with (CTickerWait _, true) => true | _ => false end.

Definition ranPlaybook (e : Event) : bool :=
  match e with (CRunPlaybook _, _) => true | _ => false end.

Definition tickerWait (e : Event) : bool :=
  match e with (CTickerWait _, _) => true | _ => false end.

(** The runner [a] with the inventory path bound, as a successful
    [SetInventory] leaves it. *)
Definition withInventory (inventory : path) (a : AnsibleRunner) : AnsibleRunner :=
  mkAnsibleRunner (Playbook a) (ConfigFile a) (Some inventory) (Check a)
    (CatalogDestination a) (TrentoApiData a).


Definition isRemoveAll (e : Event) : bool :=
  match e with (CRemoveAll _, _) => true | _ => false end.

(** Calls of [createAnsibleFiles] after the removal of the old tree. *)
Definition copyCall (c : Call) : Prop :=
  match c with
  | CMkdirAll _ | CMkdir _ | CCreate _ | CWrite _ _ => True
  | _ => False
  end.

(** * Properties *)

Ltac run := unfold bind, ret, emit, attempt, inspect, errorIf in *; simpl in *.

(** ** The service record across the operations *)

Lemma tick_service mr c cr w : (tick mr (c, cr) w).1.1 = c.
Proof.
  unfold tick, RunPlaybook, NewClusterInventoryContent, CreateInventory, SetInventory.
  run. repeat case_match; simplify_eq/=; done.
Qed.

Lemma Repeat_preserves {T} (P : T -> Prop) (tk : T -> M T) interval :
  (forall s w, P s -> P (tk s w).1) ->
  forall fuel s w, P s -> P (Repeat fuel tk interval s w).1.1.
Proof.
  intros Htk fuel. induction fuel as [|fuel IH]; intros s w Hs; simpl; [done|].
  run. case_match; [|done].
  destruct (tk s _) as [s' w'] eqn:E.
  apply IH. change s' with ((s', w').1). rewrite <- E. by apply Htk.
Qed.

Lemma startCheckRunnerTicker_service fuel c w :
  (startCheckRunnerTicker fuel c w).1.1 = c.
Proof.
  unfold startCheckRunnerTicker, NewAnsibleCheckRunner, NewAnsibleMetaRunner, SetPlaybook.
  run. repeat case_match; simplify_eq/=; try done.
  lazymatch goal with
  | H : Repeat ?f ?tk ?i ?s ?w0 = _ |- _ =>
      pose proof (Repeat_preserves (fun st => st.1 = c) tk i) as HP;
      assert (Htk : forall st w', st.1 = c -> (tk st w').1.1 = c)
        by (intros [c0 cr0] w1 Hc; simpl in Hc; subst c0; apply tick_service);
      specialize (HP Htk f s w0 eq_refl);
      rewrite H in HP; simpl in HP; done
  end.
Qed.

Lemma Start_ready fuel c w : ready (Start fuel c w).1.1 = ready c.
Proof.
  unfold Start. run.
  destruct (createAnsibleFiles _ w) as [[e|] w1]; [done|].
  destruct (retry_Do _ _ _ w1) as [[api [e|]] w2]; simpl; [done|].
  pose proof (startCheckRunnerTicker_service fuel (setTrentoApi c api)
                (mkWorld (fsys w2) (trace w2 ++ [(CGo, true)]))) as H.
  destruct (startCheckRunnerTicker _ _ _) as [[c' [[]|]] w3]; simpl in *; by subst.
Qed.

Lemma BuildCatalog_ready c w :
  let r := BuildCatalog c w in
  (r.1.2 = None /\ r.1.1 = setReady c true) \/ (r.1.2 <> None /\ r.1.1 = c).
Proof.
  unfold BuildCatalog. run.
  destruct (createAnsibleFiles _ w) as [[e|] w1]; [by right|].
  unfold NewAnsibleMetaRunner, SetPlaybook, RunPlaybook. run.
  repeat case_match; simplify_eq/=; auto.
Qed.

Lemma applyOp_frame op c w :
  isBuildCatalog op = false -> ready (applyOp op c w).1.1 = ready c.
Proof.
  destruct op as [| |fuel|mr cr]; [done|done| |]; intros _; unfold applyOp, bind, ret.
  - pose proof (Start_ready fuel c w). by destruct (Start fuel c w) as [[??]?].
  - pose proof (tick_service mr c cr w) as H.
    destruct (tick mr (c, cr) w) as [[??]?]; simpl in *. by subst.
Qed.

Lemma applyOp_monotone op c w :
  ready c = true -> ready (applyOp op c w).1.1 = true.
Proof.
  intros Hc. destruct (isBuildCatalog op) eqn:E.
  - destruct op; try done. unfold applyOp, bind, ret.
    pose proof (BuildCatalog_ready c w) as H. simpl in H.
    destruct (BuildCatalog c w) as [[c' e] w']; simpl in *.
    destruct H as [[_ ->]|[_ ->]]; done.
  - by rewrite applyOp_frame.
Qed.

(** ** Sequences of operations *)

Lemma runOps_cons op ops c w :
  runOps (op :: ops) c w =
  let r := applyOp op c w in
  let rs := runOps ops r.1.1 r.2 in
  (rs.1.1, r.1.2 :: rs.1.2, rs.2).
Proof.
  simpl. unfold bind, ret.
  destruct (applyOp op c w) as [[c1 r1] w1]; simpl.
  by destruct (runOps ops c1 w1) as [[c2 rs] w2].
Qed.

Lemma runOps_frame ops : forall c w,
  forallb (fun op => negb (isBuildCatalog op)) ops = true ->
  ready (runOps ops c w).1.1 = ready c.
Proof.
  induction ops as [|op ops IH]; intros c w Hops; [done|].
  simpl in Hops. apply andb_prop in Hops as [Hop Hops].
  rewrite runOps_cons. cbv zeta. simpl.
  rewrite IH by done. apply applyOp_frame. by destruct (isBuildCatalog op).
Qed.

Lemma runOps_ready ops : forall c w,
  ready c = true ->
  ready (runOps ops c w).1.1 = true /\
  forall i, ops !! i = Some OpIsCatalogReady ->
            (runOps ops c w).1.2 !! i = Some (RBool true).
Proof.
  induction ops as [|op ops IH]; intros c w Hc; [done|].
  rewrite runOps_cons. cbv zeta. simpl.
  pose proof (applyOp_monotone op c w Hc) as H1.
  destruct (IH _ (applyOp op c w).2 H1) as [IH1 IH2].
  split; [done|]. intros [|i] Hi; simpl in *; [|by apply IH2].
  injection Hi as ->. simpl. unfold ret, IsCatalogReady. simpl. by rewrite Hc.
Qed.

(** C1. The readiness flag is false in a service built by
    [NewRunnerService]; a [BuildCatalog] call that returns nil sets it; no
    operation resets it.  Hence, whatever operations [ops1] came before a
    successful [BuildCatalog], after any later operations [ops2] (failing
    [BuildCatalog] calls included) the flag is set and every
    [IsCatalogReady] call among [ops2] returned true. *)
Theorem readiness_is_monotone (cfg : Config) (ops1 ops2 : list Op) (w : World) :
  let s0 := (NewRunnerService cfg).1 in
  let s1 := runOps ops1 s0 w in
  let s2 := BuildCatalog s1.1.1 s1.2 in
  let s3 := runOps ops2 s2.1.1 s2.2 in
  s2.1.2 = None ->
  IsCatalogReady s0 = false /\
  IsCatalogReady s2.1.1 = true /\
  (forall op c' w', IsCatalogReady c' = true ->
                    IsCatalogReady (applyOp op c' w').1.1 = true) /\
  IsCatalogReady s3.1.1 = true /\
  (forall i, ops2 !! i = Some OpIsCatalogReady ->
             s3.1.2 !! i = Some (RBool true)).
Proof.
  intros s0 s1 s2 s3 Hok.
  assert (Hs2 : ready s2.1.1 = true).
  { destruct (BuildCatalog_ready s1.1.1 s1.2) as [[_ H]|[H _]]; [|done].
    fold s2 in H. by rewrite H. }
  split; [done|]. split; [done|].
  split; [intros op c' w'; apply applyOp_monotone|].
  apply runOps_ready, Hs2.
Qed.

(** C9. A tick leaves the readiness flag as it found it, whatever its
    stages did; so does the whole scheduling loop, and so does every
    operation other than [BuildCatalog]. *)
Theorem tick_never_writes_readiness (c : runnerService) (w : World) :
  (forall mr cr, IsCatalogReady (tick mr (c, cr) w).1.1 = IsCatalogReady c) /\
  (forall fuel,
     IsCatalogReady (startCheckRunnerTicker fuel c w).1.1 = IsCatalogReady c) /\
  (forall op, isBuildCatalog op = false ->
              IsCatalogReady (applyOp op c w).1.1 = IsCatalogReady c).
Proof.
  split; [|split].
  - intros mr cr. by rewrite tick_service.
  - intros fuel. by rewrite startCheckRunnerTicker_service.
  - intros op Hop. by apply applyOp_frame.
Qed.

(** C10. [NewRunnerService] returns a nil error for every configuration,
    and the service it returns is not ready, also after any operations
    that are not [BuildCatalog]. *)
Theorem NewRunnerService_not_ready (cfg : Config) :
  (NewRunnerService cfg).2 = None /\
  IsCatalogReady (NewRunnerService cfg).1 = false /\
  (forall ops w,
     forallb (fun op => negb (isBuildCatalog op)) ops = true ->
     IsCatalogReady (runOps ops (NewRunnerService cfg).1 w).1.1 = false).
Proof.
  split; [done|]. split; [done|].
  intros ops w Hops. unfold IsCatalogReady. by rewrite runOps_frame.
Qed.

(** ** What a computation adds to the trace *)

Lemma emits_ret {A} P (a : A) : emits P (ret a).
Proof. intros w. exists []. by rewrite app_nil_r. Qed.

Lemma emits_bind {A B} P (m : M A) (k : A -> M B) :
  emits P m -> (forall a, emits P (k a)) -> emits P (bind m k).
Proof.
  intros Hm Hk w. unfold bind.
  destruct (Hm w) as (evs1 & E1 & F1).
  destruct (m w) as [a w1]; simpl in *.
  destruct (Hk a w1) as (evs2 & E2 & F2).
  exists (evs1 ++ evs2). rewrite E2, E1, app_assoc. split; [done|].
  by apply Forall_app.
Qed.

Lemma emits_attempt P c possible effect : P c -> emits P (attempt c possible effect).
Proof. intros Hc w. eexists [_]. split; [done|]. by constructor. Qed.

Lemma emits_inspect P c holds : P c -> emits P (inspect c holds).
Proof. intros Hc w. eexists [_]. split; [done|]. by constructor. Qed.

Lemma emits_emit P c ok : P c -> emits P (emit c ok).
Proof. intros Hc w. eexists [_]. split; [done|]. by constructor. Qed.

(** Induction on embedded trees. *)
Lemma tnode_induction (P : tnode -> Prop) :
  (forall c, P (TFile c)) ->
  (forall es, Forall (fun e => P e.2) es -> P (TDir es)) ->
  forall n, P n.
Proof.
  intros Hf Hd. fix IH 1. intros [c|es]; [apply Hf|].
  apply Hd. induction es as [|[x ch] es IHes]; constructor; [apply IH|apply IHes].
Qed.

Lemma walkDir_TDir fn name es :
  walkDir fn name (TDir es) =
  (err <- fn name (Some true) None;;
   match err with
   | Some e => ret (Some e)
   | None => walkEntries fn name es
   end).
Proof.
  simpl. f_equal.
  assert (H : forall es0, (fix range (es1 : list (string * tnode)) : M (option error) :=
             match es1 with
             | [] => ret None
             | (d1, ch) :: es' =>
                 err <- walkDir fn (name ++ [d1]) ch;;
                 match err with
                 | Some e => ret (Some e)
                 | None => range es'
                 end
             end) es0 = walkEntries fn name es0).
  { induction es0 as [|[d1 ch] es0 IH]; simpl; [done|]. by rewrite IH. }
  by rewrite H.
Qed.

Lemma emits_walkDir P (fn : WalkDirFunc) :
  (forall name d e, emits P (fn name d e)) ->
  forall n name, emits P (walkDir fn name n).
Proof.
  intros Hfn. induction n as [c|es IH] using tnode_induction; intros name.
  - apply Hfn.
  - rewrite walkDir_TDir. apply emits_bind; [apply Hfn|].
    intros [e|]; [apply emits_ret|].
    induction es as [|[d1 ch] es IHes]; simpl; [apply emits_ret|].
    inversion IH as [|?? Hch Hes]; subst.
    apply emits_bind; [apply Hch|]. intros [e|]; [apply emits_ret|by apply IHes].
Qed.

Ltac emits_step :=
  lazymatch goal with
  | |- emits _ (bind _ _) => apply emits_bind
  | |- emits _ (ret _) => apply emits_ret
  | |- emits _ (attempt _ _ _) => apply emits_attempt
  | |- emits _ (inspect _ _) => apply emits_inspect
  | |- emits _ (emit _ _) => apply emits_emit
  | |- forall _, emits _ _ => intros ?
  | |- emits _ (match ?x with _ => _ end) => destruct x
  end.
Ltac emits_go := repeat emits_step; try done.

Lemma emits_copyEntry folder name d e :
  emits (fun c => fsCall c = true) (copyEntry folder name d e).
Proof. unfold copyEntry, os_Create, os_Mkdir, fmt_Fprintf. emits_go. Qed.

Lemma emits_createAnsibleFiles folder :
  emits (fun c => fsCall c = true) (createAnsibleFiles folder).
Proof.
  unfold createAnsibleFiles, os_RemoveAll, os_MkdirAll, fs_WalkDir. emits_go.
  - apply emits_walkDir. intros. apply emits_copyEntry.
  - apply emits_copyEntry.
Qed.

(** ** The runner factories *)

(** C8. The meta runner is bound to the meta playbook, the standard config
    file and the catalog destination, without inventory; the check runner
    to the main playbook, the standard config file, check mode and the API
    host and port, without inventory; each factory fails exactly when its
    playbook does not exist in the workspace, and neither touches the
    workspace. *)
Theorem factories_bind (cfg : Config) (w : World) :
  let folder := AnsibleFolder cfg in
  let m := NewAnsibleMetaRunner cfg w in
  let k := NewAnsibleCheckRunner cfg w in
  (m.1.2 = None ->
     m.1.1 = mkAnsibleRunner (Some (folder ++ AnsibleMeta))
               (Some (folder ++ AnsibleConfigFile)) None false
               (Some (folder ++ CatalogDestinationFile)) None) /\
  (k.1.2 = None ->
     k.1.1 = mkAnsibleRunner (Some (folder ++ AnsibleMain))
               (Some (folder ++ AnsibleConfigFile)) None true
               None (Some (ApiHost cfg, ApiPort cfg))) /\
  (m.1.2 <> None <-> exists_path (fsys w) (folder ++ AnsibleMeta) = false) /\
  (k.1.2 <> None <-> exists_path (fsys w) (folder ++ AnsibleMain) = false) /\
  fsys m.2 = fsys w /\ fsys k.2 = fsys w.
Proof.
  unfold NewAnsibleMetaRunner, NewAnsibleCheckRunner, SetPlaybook. run.
  destruct (exists_path (fsys w) (AnsibleFolder cfg ++ AnsibleMeta));
  destruct (exists_path (fsys w) (AnsibleFolder cfg ++ AnsibleMain));
  simpl; repeat split; try done; intros; done.
Qed.

(** ** [BuildCatalog] *)

(** C2. [BuildCatalog] provisions the workspace first (file-system calls
    only), then builds the meta runner on the provisioned workspace, then
    runs its playbook once.  If provisioning or the factory fails, their
    error is returned, no playbook runs and the service is unchanged; if
    the run fails, its error is returned and the service is unchanged; if
    it succeeds, nil is returned and the flag is set. *)
Theorem BuildCatalog_steps (c : runnerService) (w : World) :
  let folder := AnsibleFolder (config c) in
  let p := createAnsibleFiles folder w in
  let m := NewAnsibleMetaRunner (config c) p.2 in
  let run := RunPlaybook m.1.1 m.2 in
  let r := BuildCatalog c w in
  (exists evs, trace p.2 = trace w ++ evs /\
               Forall (fun e => fsCall e.1 = true) evs) /\
  (forall e, p.1 = Some e -> r = (c, Some e, p.2)) /\
  (p.1 = None -> forall e, m.1.2 = Some e ->
     r = (c, Some e, m.2) /\
     trace r.2 = trace p.2 ++ [(CSetPlaybook (folder ++ AnsibleMeta), false)]) /\
  (p.1 = None -> m.1.2 = None ->
     exists ok,
       trace r.2 = trace p.2 ++ [(CSetPlaybook (folder ++ AnsibleMeta), true);
                                 (CRunPlaybook m.1.1, ok)] /\
       r.2 = run.2 /\ r.1.2 = run.1 /\
       r.1 = if ok then (setReady c true, None)
             else (c, Some (ErrPlaybook (folder ++ AnsibleMeta)))) /\
  (r.1.2 = None -> IsCatalogReady r.1.1 = true) /\
  (r.1.2 <> None -> r.1.1 = c).
Proof.
  intros folder p m run r.
  split; [apply emits_createAnsibleFiles|].
  assert (Hr : r = BuildCatalog c w) by done.
  unfold BuildCatalog, bind, ret in Hr. fold folder p in Hr.
  destruct p as [pe pw] eqn:Ep. simpl in m, Hr |- *.
  destruct pe as [e|].
  { rewrite Hr. repeat split; try done; intros; simplify_eq/=; done. }
  fold m in Hr. subst run.
  unfold NewAnsibleMetaRunner, SetPlaybook in m. unfold bind, ret, inspect in m.
  simpl in m.
  destruct (exists_path (fsys pw) (AnsibleFolder (config c) ++ AnsibleMeta)) eqn:Ex;
    subst m; simpl in *.
  - split; [done|]. split; [done|]. rewrite Hr. clear Hr r. unfold folder.
    destruct (fails env _ _); simpl.
    + split; [intros _ _; exists false; by rewrite <- app_assoc|done].
    + split; [intros _ _; exists true; by rewrite <- app_assoc|done].
  - rewrite Hr. simpl. repeat split; try done; intros; simplify_eq/=; done.
Qed.

(** ** One round of the pipeline *)

(** What a tick adds to the trace starts with the run of the meta runner
    and goes through the stages in their order. *)
Lemma tick_events (mr : AnsibleRunner) (c : runnerService)
    (cr : AnsibleRunner) (w : World) :
  let r := tick mr (c, cr) w in
  let file := AnsibleFolder (config c) ++ AnsibleHostFile in
  let content := topology env (trace w ++ [(CRunPlaybook mr, true)]) in
  let cr' := mkAnsibleRunner (Playbook cr) (ConfigFile cr) (Some file)
               (Check cr) (CatalogDestination cr) (TrentoApiData cr) in
  exists evs,
    trace r.2 = trace w ++ evs /\
    evs <> [] /\
    map fst evs `prefix_of`
      [CRunPlaybook mr; CNewClusterInventoryContent (trentoApi c);
       CCreateInventory file content; CSetInventory file; CRunPlaybook cr'].
Proof.
  unfold tick, RunPlaybook, NewClusterInventoryContent, CreateInventory, SetInventory.
  run.
  destruct (fails env (trace w) (CRunPlaybook mr)); simpl.
  { eexists [_]. repeat split; try done. by eexists. }
  destruct (fails env _ (CNewClusterInventoryContent _)); simpl.
  { eexists [_; _]. rewrite <- app_assoc. repeat split; try done. by eexists. }
  match goal with
  | |- context [if ?b then None else Some (ErrInventoryFile _)] => destruct b
  end; simpl.
  2:{ eexists [_; _; _]. rewrite <- !app_assoc. repeat split; try done. by eexists. }
  match goal with |- context [exists_path ?f ?p] => destruct (exists_path f p) end; simpl.
  2:{ eexists [_; _; _; _]. rewrite <- !app_assoc. repeat split; try done. by eexists. }
  eexists [_; _; _; _; _]. rewrite <- !app_assoc. repeat split; try done.
Qed.


(** ** Retrying the liveness probe *)

Lemma countb_app f evs1 evs2 : countb f (evs1 ++ evs2) = countb f evs1 + countb f evs2.
Proof. induction evs1 as [|e evs1 IH]; simpl; [done|]. rewrite IH. lia. Qed.

Lemma countb_none (P : Call -> Prop) f evs :
  (forall c ok, P c -> f (c, ok) = false) ->
  Forall (fun e => P e.1) evs -> countb f evs = 0.
Proof.
  intros HP. induction 1 as [|[c ok] evs Hc _ IH]; simpl; [done|].
  by rewrite (HP c ok Hc), IH.
Qed.

Lemma retryCall_weaken cfg hi hi' c : hi <= hi' -> retryCall cfg hi c -> retryCall cfg hi' c.
Proof. intros Hle. destruct c; simpl; try done. intros [??]. split; [lia|done]. Qed.

Lemma delay_bounds cfg n r :
  (0 <= delay cfg)%Z -> (0 < maxJitter cfg)%Z ->
  (delay cfg * 2 ^ Z.of_nat n <= BackOffDelay cfg n + RandomDelay cfg r
   < delay cfg * 2 ^ Z.of_nat n + maxJitter cfg)%Z.
Proof.
  intros Hd Hj. unfold BackOffDelay, RandomDelay.
  rewrite Z.shiftl_mul_pow2 by lia.
  pose proof (Z.mod_pos_bound r (maxJitter cfg) Hj). lia.
Qed.

Lemma retryLoop_S {T} cfg (fn : T -> M (T * option error)) n remaining s lastErr w :
  retryLoop cfg fn n (S remaining) s lastErr w =
  let r := fn s w in
  match r.1.2 with
  | None => (r.1.1, None, r.2)
  | Some e =>
      let w1 := mkWorld (fsys r.2) (trace r.2 ++ [(COnRetry n e, true)]) in
      match remaining with
      | O => (r.1.1, Some e, w1)
      | S _ =>
          let d := (delayType cfg n w1).1 in
          let fired := negb (fails env (trace w1) (CRetryWait n d)) in
          let w2 := mkWorld (fsys w1) (trace w1 ++ [(CRetryWait n d, fired)]) in
          if fired then retryLoop cfg fn (S n) remaining r.1.1 (Some e) w2
          else (r.1.1, Some ErrContext, w2)
      end
  end.
Proof.
  cbn [retryLoop]. unfold bind at 1.
  destruct (fn s w) as [[s' [e|]] w1]; [|done].
  destruct remaining; [done|].
  cbv zeta. unfold bind, emit, ret, attempt, delayType. cbn [fst snd fsys trace andb].
  by destruct (negb (fails env _ _)).
Qed.

Lemma probe_run c s w :
  let api := NewTrentoApiService (ApiHost (config c)) (ApiPort (config c)) in
  let up := negb (fails env (trace w) (CIsWebServerUp api)) in
  probe c s w =
  (Some api, if up then None else Some ErrServerNotAvailable,
   mkWorld (fsys w) (trace w ++ [(CIsWebServerUp api, up)])).
Proof. unfold probe, IsWebServerUp. run. by destruct (fails env _ _). Qed.

#[local] Arguments retryLoop : simpl never.
#[local] Arguments delayType : simpl never.

Lemma retryLoop_probe cfg c :
  (0 <= delay cfg)%Z -> (0 < maxJitter cfg)%Z ->
  forall remaining n s lastErr w,
  let api := NewTrentoApiService (ApiHost (config c)) (ApiPort (config c)) in
  let r := retryLoop cfg (probe c) n (S remaining) s lastErr w in
  exists evs,
    trace r.2 = trace w ++ evs /\ fsys r.2 = fsys w /\
    Forall (fun e => retryCall cfg (S n + remaining) e.1) evs /\
    ((r.1 = (Some api, None) /\ countb probeOk evs = 1 /\
      countb probeFailed evs <= remaining /\ countb sawCancel evs = 0) \/
     (r.1.2 = Some ErrContext /\ countb probeOk evs = 0 /\
      countb probeFailed evs <= remaining /\ countb sawCancel evs = 1) \/
     (r.1.2 = Some ErrServerNotAvailable /\ countb probeOk evs = 0 /\
      countb probeFailed evs = S remaining /\ countb sawCancel evs = 0)).
Proof.
  intros Hd Hj. induction remaining as [|remaining IH]; intros n s lastErr w api r;
    subst r; rewrite retryLoop_S, probe_run; cbv zeta; fold api;
    destruct (fails env (trace w) (CIsWebServerUp api)) eqn:E; simpl.
  - eexists [_; _]. rewrite <- app_assoc. split; [done|]. split; [done|].
    split; [by repeat constructor|]. right; right. done.
  - eexists [_]. split; [done|]. split; [done|].
    split; [by repeat constructor|]. left. done.
  - match goal with |- context [RandomDelay cfg ?r] =>
      pose proof (delay_bounds cfg n r Hd Hj) as Hb;
      set (d := (BackOffDelay cfg n + RandomDelay cfg r)%Z) in *
    end.
    destruct (fails env _ (CRetryWait n d)) eqn:Ew; simpl.
    + eexists [_; _; _]. rewrite <- !app_assoc. split; [done|]. split; [done|].
      split; [repeat (constructor; [simpl; first [done|split; [lia|exact Hb]]|]); constructor|].
      right; left. simpl. repeat split; try done; lia.
    + match goal with |- context [retryLoop cfg (probe c) (S n) (S remaining) ?s' ?le ?w'] =>
        destruct (IH (S n) s' le w') as (evs & Etr & Efs & Hall & Hcases);
        cbv zeta in Etr, Efs, Hcases;
        set (r' := retryLoop cfg (probe c) (S n) (S remaining) s' le w') in *
      end.
      exists ([(CIsWebServerUp api, false); (COnRetry n ErrServerNotAvailable, true);
               (CRetryWait n d, true)] ++ evs).
      rewrite Etr, Efs. simpl. rewrite <- !app_assoc. split; [done|]. split; [done|].
      split.
      { repeat (constructor; [simpl; first [done|split; [lia|exact Hb]]|]).
        eapply Forall_impl; [exact Hall|]. intros e. apply retryCall_weaken. lia. }
      destruct Hcases as [(?&?&?&?)|[(?&?&?&?)|(?&?&?&?)]]; [left|right;left|right;right];
        repeat split; try done; lia.
  - eexists [_]. split; [done|]. split; [done|].
    split; [by repeat constructor|]. left. simpl. repeat split; try done; lia.
Qed.
Lemma retry_Do_probe c w :
  let api := NewTrentoApiService (ApiHost (config c)) (ApiPort (config c)) in
  let r := retry_Do startRetryConfig (probe c) None w in
  exists evs,
    trace r.2 = trace w ++ evs /\ fsys r.2 = fsys w /\
    Forall (fun e => retryCall startRetryConfig 8 e.1) evs /\
    ((r.1 = (Some api, None) /\ countb probeOk evs = 1 /\
      countb probeFailed evs <= 7 /\ countb sawCancel evs = 0) \/
     (r.1.2 = Some ErrContext /\ countb probeOk evs = 0 /\
      countb probeFailed evs <= 7 /\ countb sawCancel evs = 1) \/
     (r.1.2 = Some ErrServerNotAvailable /\ countb probeOk evs = 0 /\
      countb probeFailed evs = 8 /\ countb sawCancel evs = 0)).
Proof.
  intros api r. subst r. unfold retry_Do, bind, attempt, ret. cbn [fst snd fsys trace andb].
  destruct (fails env (trace w) CContextErr) eqn:E; cbn [negb].
  - eexists [_]. split; [done|]. split; [done|]. split; [by repeat constructor|].
    right; left. simpl. repeat split; try done; lia.
  - change (attempts startRetryConfig) with 8.
    match goal with |- context [retryLoop _ _ 0 8 None None ?w'] =>
      destruct (retryLoop_probe startRetryConfig c ltac:(done) ltac:(done) 7 0 None None w')
        as (evs & Etr & Efs & Hall & Hcases);
      cbv zeta in Etr, Efs, Hcases;
      set (r' := retryLoop startRetryConfig (probe c) 0 8 None None w') in *
    end.
    exists ((CContextErr, true) :: evs). rewrite Etr, Efs. simpl.
    rewrite <- app_assoc. split; [done|]. split; [done|].
    split; [by constructor|].
    destruct Hcases as [(?&?&?&?)|[(?&?&?&?)|(?&?&?&?)]]; [left|right;left|right;right];
      repeat split; try done; lia.
Qed.

(** ** The scheduling loop *)

Lemma emits_tick mr st : emits loopCall (tick mr st).
Proof.
  destruct st as [c cr].
  unfold tick, RunPlaybook, NewClusterInventoryContent, CreateInventory, SetInventory.
  emits_go. intros w. exists []. by rewrite app_nil_r.
Qed.

Lemma emits_Repeat {T} (P : Call -> Prop) (tk : T -> M T) interval :
  P (CTickerWait interval) -> (forall s, emits P (tk s)) ->
  forall fuel s, emits P (Repeat fuel tk interval s).
Proof.
  intros Hw Htk. induction fuel as [|fuel IH]; intros s; simpl; emits_go.
Qed.

Lemma emits_factories cfg :
  emits loopCall (NewAnsibleCheckRunner cfg) /\ emits loopCall (NewAnsibleMetaRunner cfg).
Proof.
  split; unfold NewAnsibleCheckRunner, NewAnsibleMetaRunner, SetPlaybook; emits_go.
Qed.

Lemma emits_startCheckRunnerTicker fuel c : emits loopCall (startCheckRunnerTicker fuel c).
Proof.
  unfold startCheckRunnerTicker. emits_go; try apply emits_factories.
  apply emits_Repeat; [done|]. intros s. apply emits_tick.
Qed.

(** ** The anatomy of [Start] *)

(** The events of [Start] come in three groups: provisioning, retrying the
    probe, and the goroutine.  Four ways through: provisioning fails; the
    context is cancelled while retrying; all attempts fail; the probe
    succeeds and the loop is started. *)
Lemma Start_anatomy fuel c w :
  let folder := AnsibleFolder (config c) in
  let api := NewTrentoApiService (ApiHost (config c)) (ApiPort (config c)) in
  let p := createAnsibleFiles folder w in
  let r := Start fuel c w in
  exists evs_p evs_q evs_l,
    trace p.2 = trace w ++ evs_p /\
    trace r.2 = trace w ++ evs_p ++ evs_q ++ evs_l /\
    Forall (fun e => fsCall e.1 = true) evs_p /\
    Forall (fun e => retryCall startRetryConfig 8 e.1) evs_q /\
    ((exists e, p.1 = Some e /\ r = (c, Returned (Some e), p.2) /\
                evs_q = [] /\ evs_l = []) \/
     (p.1 = None /\ r.1 = (c, Returned (Some ErrContext)) /\ evs_l = [] /\
      countb probeOk evs_q = 0 /\ countb probeFailed evs_q <= 7 /\
      countb sawCancel evs_q = 1) \/
     (p.1 = None /\ r.1 = (c, Returned (Some ErrServerNotAvailable)) /\ evs_l = [] /\
      countb probeOk evs_q = 0 /\ countb probeFailed evs_q = 8 /\
      countb sawCancel evs_q = 0) \/
     (p.1 = None /\ countb probeOk evs_q = 1 /\ countb probeFailed evs_q <= 7 /\
      countb sawCancel evs_q = 0 /\
      r.1.1 = setTrentoApi c (Some api) /\
      exists evs,
        evs_l = (CGo, true) :: evs /\
        let s := startCheckRunnerTicker fuel (setTrentoApi c (Some api))
                   (mkWorld (fsys p.2) (trace w ++ evs_p ++ evs_q ++ [(CGo, true)])) in
        ((s.1.2 = Running /\ r.1.2 = Running /\ Forall (fun e => loopCall e.1) evs /\
          r.2 = s.2) \/
         (s.1.2 = Returned tt /\ r.1.2 = Returned None /\
          exists evs', evs = evs' ++ [(CWgDone, true)] /\
                       Forall (fun e => loopCall e.1) evs' /\
                       trace s.2 = trace w ++ evs_p ++ evs_q ++ (CGo, true) :: evs')))).
Proof.
  intros folder api p r.
  destruct (emits_createAnsibleFiles folder w) as (evs_p & Ep & Fp). fold p in Ep.
  assert (Hr : r = Start fuel c w) by done.
  unfold Start, bind, ret in Hr. fold folder p in Hr.
  destruct p as [[e|] pw] eqn:Epw; cbn [fst snd] in *.
  { exists evs_p, [], []. rewrite Hr. simpl. rewrite app_nil_r.
    repeat split; try done. left. by exists e. }
  destruct (retry_Do_probe c pw) as (evs_q & Eq & Efs & Fq & Hq). cbv zeta in Eq, Efs, Hq.
  destruct (retry_Do startRetryConfig (probe c) None pw) as [[a qe] qw] eqn:Eqw.
  cbn [fst snd] in *.
  destruct Hq as [(Hres&?&?&?)|[(Hres&?&?&?)|(Hres&?&?&?)]]; simplify_eq/=.
  - (* the probe succeeded *)
    subst api.
    set (api := NewTrentoApiService (ApiHost (config c)) (ApiPort (config c))) in *.
    set (w1 := mkWorld (fsys qw) (trace qw ++ [(CGo, true)])) in *.
    assert (Hw : mkWorld (fsys pw) (trace w ++ evs_p ++ evs_q ++ [(CGo, true)]) = w1).
    { unfold w1. rewrite Eq, Ep, Efs, <- !app_assoc. done. }
    destruct (emits_startCheckRunnerTicker fuel (setTrentoApi c (Some api)) w1)
      as (evs & El & Fl).
    pose proof (startCheckRunnerTicker_service fuel (setTrentoApi c (Some api)) w1) as Hsvc.
    assert (Etr1 : trace w1 = trace w ++ evs_p ++ evs_q ++ [(CGo, true)])
      by (by rewrite <- Hw).
    rewrite Hr. clear Hr.
    destruct (startCheckRunnerTicker fuel (setTrentoApi c (Some api)) w1)
      as [[c' [[]|]] sw] eqn:Es; cbn [fst snd] in *; subst c'.
    + exists evs_p, evs_q, ((CGo, true) :: evs ++ [(CWgDone, true)]).
      split; [done|]. split.
      { cbn [trace snd]. rewrite El, Etr1, <- !app_assoc. done. }
      split; [done|]. split; [done|]. right; right; right.
      repeat split; try done. exists (evs ++ [(CWgDone, true)]). split; [done|].
      rewrite Hw, Es. right. cbn [fst snd].
      repeat split; try done. exists evs. repeat split; try done.
      rewrite El, Etr1, <- !app_assoc. done.
    + exists evs_p, evs_q, ((CGo, true) :: evs).
      split; [done|]. split.
      { cbn [trace snd]. rewrite El, Etr1, <- !app_assoc. done. }
      split; [done|]. split; [done|]. right; right; right.
      repeat split; try done. exists evs. split; [done|].
      rewrite Hw, Es. left. done.
  - rewrite Hr. exists evs_p, evs_q, []. rewrite app_nil_r. cbn [fst snd]. rewrite Eq, Ep, <- app_assoc.
    repeat split; try done. right; left. done.
  - rewrite Hr. exists evs_p, evs_q, []. rewrite app_nil_r. cbn [fst snd]. rewrite Eq, Ep, <- app_assoc.
    repeat split; try done. right; right; left. done.
Qed.
(** ** Counting over the three groups *)



Lemma counts_loop evs :
  Forall (fun e => loopCall e.1) evs ->
  countb probeOk evs = 0 /\ countb probeFailed evs = 0 /\ countb isGo evs = 0 /\
  forall n d ok, (CRetryWait n d, ok) ∉ evs.
Proof.
  intros H. repeat split.
  - eapply (countb_none (loopCall)); [|exact H]. intros [] []; done.
  - eapply (countb_none (loopCall)); [|exact H]. intros [] []; done.
  - eapply (countb_none (loopCall)); [|exact H]. intros [] []; done.
  - intros n d ok Hin. rewrite Forall_forall in H. by specialize (H _ Hin).
Qed.


(** ** [Start] and the liveness probe *)


(** ** The loop keeps going *)

Lemma since_app w w' evs : trace w' = trace w ++ evs -> since w w' = evs.
Proof. intros E. unfold since. by rewrite E, drop_app_length. Qed.

Lemma Repeat_S {T} fuel (tk : T -> M T) interval s w :
  Repeat (S fuel) tk interval s w =
  let fired := negb (fails env (trace w) (CTickerWait interval)) in
  let w1 := mkWorld (fsys w) (trace w ++ [(CTickerWait interval, fired)]) in
  if fired then Repeat fuel tk interval (tk s w1).1 (tk s w1).2
  else (s, Returned tt, w1).
Proof.
  cbn [Repeat]. unfold bind, attempt, ret. cbn [fst snd fsys trace andb].
  destruct (negb (fails env _ _)); [|done].
  by destruct (tk s _).
Qed.

Lemma Repeat_running {T} (tk : T -> M T) interval :
  (forall h, fails env h (CTickerWait interval) = false) ->
  forall fuel s w, (Repeat fuel tk interval s w).1.2 = Running.
Proof.
  intros Hnever. induction fuel as [|fuel IH]; intros s w; [done|].
  rewrite Repeat_S. cbv zeta. rewrite Hnever. cbn [negb]. apply IH.
Qed.

Lemma tick_first_event mr st w :
  exists ok evs, since w (tick mr st w).2 = (CRunPlaybook mr, ok) :: evs.
Proof.
  destruct st as [c cr].
  destruct (tick_events mr c cr w) as (evs & Etr & Hne & Hpre).
  rewrite (since_app _ _ _ Etr).
  destruct evs as [|[c1 ok] evs]; [done|].
  destruct Hpre as [k Hk]. simpl in Hk. injection Hk as -> _. by exists ok, evs.
Qed.

(** C6. Take a tick whose fifth stage, the run of the check runner,
    failed.  That run is the last thing the tick did; the service comes out
    of the tick as it went in, readiness included, and the check runner
    with the inventory of this round bound.  The scheduler goes on as after
    any tick: if the ticker fires before the context is cancelled, the next
    round starts with the meta runner; and if the context is never
    cancelled, the loop is still running after any number of rounds. *)
Theorem check_failure_is_only_observed (mr : AnsibleRunner) (c : runnerService)
    (cr : AnsibleRunner) (w : World) (interval : Z) (fuel : nat) :
  let r := tick mr (c, cr) w in
  let l := Repeat (S fuel) (tick mr) interval r.1 r.2 in
  let file := AnsibleFolder (config c) ++ AnsibleHostFile in
  since w r.2 !! 4 = Some (CRunPlaybook r.1.2, false) ->
  length (since w r.2) = 5 /\
  r.1 = (c, mkAnsibleRunner (Playbook cr) (ConfigFile cr) (Some file)
              (Check cr) (CatalogDestination cr) (TrentoApiData cr)) /\
  IsCatalogReady r.1.1 = IsCatalogReady c /\
  (fails env (trace r.2) (CTickerWait interval) = false ->
     exists ok evs,
       since r.2 l.2 = (CTickerWait interval, true) :: (CRunPlaybook mr, ok) :: evs) /\
  ((forall h, fails env h (CTickerWait interval) = false) ->
     forall n, (Repeat n (tick mr) interval r.1 r.2).1.2 = Running).
Proof.
  intros r l file H5. pose proof (tick_service mr c cr w) as Hc. fold r in Hc.
  destruct (tick_events mr c cr w) as (evs0 & Etr0 & _ & [k Hpre]).
  fold r file in Etr0, Hpre. rewrite (since_app _ _ _ Etr0) in H5 |- *.
  assert (Hlen : length evs0 = 5).
  { apply (f_equal length) in Hpre. rewrite length_app, length_map in Hpre.
    apply lookup_lt_Some in H5. simpl in Hpre. lia. }
  split; [done|]. split.
  { destruct r as [[c' cr'] w'] eqn:Er. cbn [fst snd] in *. subst c'. f_equal.
    apply (f_equal (fun x => x !! 4)) in Hpre.
    rewrite lookup_app_l in Hpre by (rewrite length_map; lia).
    rewrite list_lookup_fmap, H5 in Hpre. simpl in Hpre. congruence. }
  split; [by rewrite Hc|].
  split; [|intros Hn n; by apply Repeat_running].
  intros Hfire. subst l. rewrite Repeat_S. cbv zeta. rewrite Hfire. cbn [negb].
  set (w1 := mkWorld (fsys r.2) (trace r.2 ++ [(CTickerWait interval, true)])).
  destruct (tick_first_event mr r.1 w1) as (ok & evs & Ht).
  assert (Et : trace (tick mr r.1 w1).2 = trace w1 ++ (CRunPlaybook mr, ok) :: evs).
  { destruct (emits_tick mr r.1 w1) as (evs' & E' & _).
    rewrite (since_app _ _ _ E') in Ht. by rewrite E', Ht. }
  destruct (emits_Repeat loopCall (tick mr) interval I (emits_tick mr) fuel
              (tick mr r.1 w1).1 (tick mr r.1 w1).2) as (evs2 & E2 & _).
  exists ok, (evs ++ evs2). apply since_app.
  rewrite E2, Et. unfold w1. cbn [trace]. by rewrite <- !app_assoc.
Qed.

(** ** The outcomes of [Start] *)

Lemma startCheckRunnerTicker_running fuel c w :
  exists_path (fsys w) (AnsibleFolder (config c) ++ AnsibleMain) = true ->
  exists_path (fsys w) (AnsibleFolder (config c) ++ AnsibleMeta) = true ->
  (forall h, fails env h (CTickerWait (Interval (config c))) = false) ->
  (startCheckRunnerTicker fuel c w).1.2 = Running.
Proof.
  intros Hmain Hmeta Hnever.
  unfold startCheckRunnerTicker, NewAnsibleCheckRunner, NewAnsibleMetaRunner, SetPlaybook.
  unfold bind, inspect, ret. cbn [fst snd fsys trace]. rewrite Hmain. cbn [fsys]. rewrite Hmeta.
  match goal with |- context [Repeat fuel ?tk ?i ?s ?w'] =>
    pose proof (Repeat_running tk i Hnever fuel s w') as H;
    destruct (Repeat fuel tk i s w') as [[[c' cr'] o] w'']
  end.
  done.
Qed.



(** ** The file system under the primitives *)

Lemma is_dir_Some fs p : fs !! p = Some Dir -> is_dir fs p = true.
Proof. intros H. unfold is_dir. rewrite H. by destruct p. Qed.

Lemma parent_snoc (p : path) x : parent (p ++ [x]) = p.
Proof. unfold parent. apply removelast_last. Qed.

Lemma nonempty_true p : p <> [] -> nonempty p = true.
Proof. by destruct p. Qed.

Lemma remove_all_lookup p fs q :
  remove_all p fs !! q = if decide (p `prefix_of` q) then None else fs !! q.
Proof.
  unfold remove_all. destruct (decide (p `prefix_of` q)) as [Hp|Hp].
  - apply map_lookup_filter_None. right. intros x _. simpl. tauto.
  - destruct (fs !! q) as [x|] eqn:E.
    + apply map_lookup_filter_Some. done.
    + apply map_lookup_filter_None. by left.
Qed.

Lemma mkdir_all_spec rest : forall fs pre fs',
  mkdir_all fs pre rest = Some fs' ->
  (rest <> [] -> fs' !! (pre ++ rest) = Some Dir) /\
  (forall q, ~ q `prefix_of` (pre ++ rest) -> fs' !! q = fs !! q).
Proof.
  induction rest as [|x rest IH]; intros fs pre fs' H; simpl in H.
  - injection H as <-. done.
  - assert (Happ : pre ++ x :: rest = (pre ++ [x]) ++ rest) by (by rewrite <- app_assoc).
    rewrite Happ.
    assert (Hnp : forall q, ~ q `prefix_of` (pre ++ [x]) ++ rest -> q <> pre ++ [x]).
    { intros q Hq ->. apply Hq. by apply prefix_app_r. }
    destruct (fs !! (pre ++ [x])) as [[|c]|] eqn:E; [| done |].
    + destruct (IH _ _ _ H) as [H1 H2]. split; [|done].
      intros _. destruct rest as [|y rest]; [|by apply H1].
      simpl in H. injection H as <-. by rewrite app_nil_r.
    + destruct (IH _ _ _ H) as [H1 H2]. split.
      * intros _. destruct rest as [|y rest]; [|by apply H1].
        simpl in H. injection H as <-. by rewrite app_nil_r, lookup_insert_eq.
      * intros q Hq. rewrite H2 by done. apply lookup_insert_ne. by apply not_eq_sym, Hnp.
Qed.

(** ** Embedded trees *)

Lemma wf_tnode_TDir es :
  wf_tnode (TDir es) <-> NoDup (map fst es) /\ Forall (fun e => wf_tnode e.2) es.
Proof.
  simpl. apply and_iff_compat_l.
  induction es as [|[d ch] es IH]; simpl.
  - split; [by constructor|done].
  - rewrite Forall_cons, IH. done.
Qed.

Lemma assoc_Some_in x es n : assoc x es = Some n -> (x, n) ∈ es.
Proof.
  induction es as [|[y m] es IH]; simpl; [done|].
  destruct (decide (x = y)) as [->|]; [intros [= ->]; left|intros H; right; auto].
Qed.

Lemma assoc_None x es : assoc x es = None -> x ∉ map fst es.
Proof.
  induction es as [|[y m] es IH]; simpl; [intros _; apply not_elem_of_nil|].
  destruct (decide (x = y)) as [->|]; [done|].
  intros H. apply not_elem_of_cons. split; [done|]. by apply IH.
Qed.

Lemma assoc_NoDup x n es : NoDup (map fst es) -> (x, n) ∈ es -> assoc x es = Some n.
Proof.
  induction es as [|[y m] es IH]; simpl; intros Hnd Hin.
  - by apply elem_of_nil in Hin.
  - apply NoDup_cons in Hnd as [Hy Hnd].
    apply elem_of_cons in Hin as [[= -> ->]|Hin].
    + by rewrite decide_True.
    + destruct (decide (x = y)) as [->|]; [|by apply IH].
      exfalso. apply Hy. apply list_elem_of_fmap. by exists (y, n).
Qed.

Lemma tlookup_app n p q : tlookup n (p ++ q) = tlookup n p ≫= fun m => tlookup m q.
Proof.
  revert n. induction p as [|x p IH]; intros n; simpl; [done|].
  destruct n as [c|es]; [done|]. destruct (assoc x es); [apply IH|done].
Qed.
(** ** Copying the template when no ignored call fails *)

Section Mirror.

Variable folder : path.
Hypothesis write_ok : forall h p c, fails env h (CWrite p c) = false.
Hypothesis mkdir_ok : forall h p, fails env h (CMkdir p) = false.

Lemma copyEntry_file name c w :
  tlookup ansibleFS name = Some (TFile c) ->
  let p := folder ++ name in
  let r := copyEntry folder name (Some false) None w in
  r.1 = None ->
  is_dir (fsys w) p = false /\ fsys r.2 = <[p := File c]> (fsys w).
Proof.
  intros Hl p r. subst r.
  unfold copyEntry, embed_ReadFile, os_Create, fmt_Fprintf. rewrite Hl. fold p.
  unfold bind, attempt, ret, errorIf. cbn [negb default from_option id fst snd fsys trace].
  destruct (nonempty p && negb (is_dir (fsys w) p) && is_dir (fsys w) (parent p) && _) eqn:E;
    cbn [fst snd]; [|done].
  intros _. apply andb_prop in E as [E _]. apply andb_prop in E as [E _].
  apply andb_prop in E as [_ E]. apply negb_true_iff in E. split; [done|].
  rewrite write_ok. cbn [negb]. unfold is_file. cbn [fsys trace].
  rewrite lookup_insert_eq. cbn [andb]. by rewrite insert_insert_eq.
Qed.

Lemma copyEntry_dir name w :
  let p := folder ++ name in
  let r := copyEntry folder name (Some true) None w in
  r.1 = None /\
  fsys r.2 = if nonempty p && negb (exists_path (fsys w) p) && is_dir (fsys w) (parent p)
             then <[p := Dir]> (fsys w) else fsys w.
Proof.
  intros p r. subst r. unfold copyEntry, os_Mkdir. fold p.
  unfold bind, attempt, ret. cbn [negb default from_option id fst snd fsys trace].
  rewrite mkdir_ok. cbn [negb]. rewrite andb_true_r. done.
Qed.

Lemma app_cons_ne (l : path) x q : l ++ x :: q <> l.
Proof.
  intros E. apply (f_equal length) in E. rewrite length_app in E. simpl in E. lia.
Qed.

Lemma not_prefix_app_cons (l : path) x q : ~ (l ++ x :: q) `prefix_of` l.
Proof.
  intros H. apply prefix_length in H. rewrite length_app in H. simpl in H. lia.
Qed.

Lemma not_prefix_sibling (base : path) d d' q :
  d <> d' -> ~ (base ++ [d]) `prefix_of` (base ++ d' :: q).
Proof.
  intros Hd H. apply prefix_app_inv in H. destruct H as [k Hk].
  simpl in Hk. congruence.
Qed.

Lemma not_prefix_longer (base : path) d : ~ (base ++ [d]) `prefix_of` base.
Proof.
  intros H. apply prefix_length in H. rewrite length_app in H. simpl in H. lia.
Qed.

Lemma walkDir_mirror n : forall name w,
  wf_tnode n -> name <> [] -> tlookup ansibleFS name = Some n ->
  ((fsys w !! (folder ++ name) = None /\
    is_dir (fsys w) (parent (folder ++ name)) = true) \/
   fsys w !! (folder ++ name) = Some Dir) ->
  (forall q, q <> [] -> fsys w !! ((folder ++ name) ++ q) = None) ->
  let r := walkDir (copyEntry folder) name n w in
  r.1 = None ->
  (forall q, fsys r.2 !! ((folder ++ name) ++ q) = node_of <$> tlookup n q) /\
  (forall p, ~ (folder ++ name) `prefix_of` p -> fsys r.2 !! p = fsys w !! p).
Proof.
  induction n as [c|es IH] using tnode_induction;
    intros name w Hwf Hname Hl Hat Hbelow r Hr.
  - (* a file *)
    subst r. cbn [walkDir] in *.
    destruct (copyEntry_file name c w Hl Hr) as [Hnd Hfs]. rewrite Hfs.
    assert (Hne : folder ++ name <> []) by (by destruct folder, name).
    split.
    + intros [|x q].
      * rewrite app_nil_r, lookup_insert_eq. done.
      * rewrite lookup_insert_ne.
        { rewrite Hbelow by done. done. }
        apply not_eq_sym, app_cons_ne.
    + intros p Hp. apply lookup_insert_ne. intros <-. by apply Hp.
  - (* a directory *)
    apply wf_tnode_TDir in Hwf as [Hnd Hwfs].
    assert (Hne : folder ++ name <> []) by (by destruct folder, name).
    subst r. rewrite walkDir_TDir in Hr |- *. unfold bind in Hr |- *.
    destruct (copyEntry_dir name w) as [Hc Hfs].
    destruct (copyEntry folder name (Some true) None w) as [e w1] eqn:Ec.
    cbn [fst snd] in Hc, Hfs. subst e.
    assert (Hdir1 : fsys w1 !! (folder ++ name) = Some Dir).
    { rewrite Hfs. destruct Hat as [[Hat Hparent]|Hat].
      - unfold exists_path. rewrite Hat, Hparent, nonempty_true by done.
        destruct (folder ++ name); [done|]. cbn. by rewrite lookup_insert_eq.
      - unfold exists_path. rewrite Hat.
        destruct (folder ++ name) eqn:E; [done|]. rewrite andb_false_r. cbn. done. }
    assert (Hother1 : forall p, p <> folder ++ name -> fsys w1 !! p = fsys w !! p).
    { intros p Hp. rewrite Hfs. destruct (_ && _); [|done]. by rewrite lookup_insert_ne. }
    clear Hfs Ec.
    (* the loop over the entries *)
    assert (Hloop : forall es' w2,
      Forall (fun e => forall name w, wf_tnode e.2 -> name <> [] ->
                tlookup ansibleFS name = Some e.2 ->
                ((fsys w !! (folder ++ name) = None /\
                  is_dir (fsys w) (parent (folder ++ name)) = true) \/
                 fsys w !! (folder ++ name) = Some Dir) ->
                (forall q, q <> [] -> fsys w !! ((folder ++ name) ++ q) = None) ->
                let r := walkDir (copyEntry folder) name e.2 w in
                r.1 = None ->
                (forall q, fsys r.2 !! ((folder ++ name) ++ q) = node_of <$> tlookup e.2 q) /\
                (forall p, ~ (folder ++ name) `prefix_of` p -> fsys r.2 !! p = fsys w !! p)) es' ->
      NoDup (map fst es') -> Forall (fun e => wf_tnode e.2) es' ->
      (forall d ch, (d, ch) ∈ es' -> tlookup ansibleFS (name ++ [d]) = Some ch) ->
      fsys w2 !! (folder ++ name) = Some Dir ->
      (forall d, d ∈ map fst es' -> forall q, fsys w2 !! ((folder ++ name) ++ d :: q) = None) ->
      let r := walkEntries (copyEntry folder) name es' w2 in
      r.1 = None ->
      (forall d ch, (d, ch) ∈ es' ->
         forall q, fsys r.2 !! ((folder ++ name) ++ d :: q) = node_of <$> tlookup ch q) /\
      (forall p, (forall d, d ∈ map fst es' -> ~ ((folder ++ name) ++ [d]) `prefix_of` p) ->
         fsys r.2 !! p = fsys w2 !! p)).
    { clear IH Hnd Hwfs Hr Hdir1 Hother1.
      induction es' as [|[d ch] es' IHes]; intros w2 IH Hnd Hwfs Hlk Hdir Hfresh r Hr.
      { subst r. simpl. split; [|done]. intros d ch Hin. by apply elem_of_nil in Hin. }
      subst r. cbn [walkEntries] in Hr |- *. unfold bind in Hr |- *.
      apply Forall_cons in IH as [IHch IH]. apply Forall_cons in Hwfs as [Hwfch Hwfs].
      cbn [map fst] in Hnd. apply NoDup_cons in Hnd as [Hd Hnd].
      assert (Hbase : folder ++ name ++ [d] = (folder ++ name) ++ [d]) by apply app_assoc.
      specialize (IHch (name ++ [d]) w2 Hwfch).
      cbn [snd] in IHch. rewrite Hbase, parent_snoc in IHch.
      specialize (IHch ltac:(by destruct name) (Hlk d ch ltac:(left))).
      specialize (IHch ltac:(left; split;
                             [rewrite <- (Hfresh d ltac:(left) []); done
                             |by apply is_dir_Some])).
      specialize (IHch ltac:(intros q _; rewrite <- app_assoc; apply Hfresh; left)).
      destruct (walkDir (copyEntry folder) (name ++ [d]) ch w2) as [e w3] eqn:Ew.
      cbn [fst snd] in IHch, Hr. destruct e as [e|]; [done|].
      destruct (IHch eq_refl) as [Hmir Hframe].
      specialize (IHes w3 IH Hnd Hwfs).
      specialize (IHes ltac:(intros d' ch' Hin; apply Hlk; by right)).
      specialize (IHes ltac:(rewrite Hframe; [done|apply not_prefix_longer])).
      specialize (IHes ltac:(intros d' Hd' q; rewrite Hframe;
                             [apply Hfresh; by right
                             |apply not_prefix_sibling; intros ->; done])).
      cbv zeta in IHes. specialize (IHes Hr). destruct IHes as [Hmir' Hframe'].
      split.
      - intros d0 ch0 Hin q. apply elem_of_cons in Hin as [[= -> ->]|Hin]; [|by apply Hmir'].
        rewrite Hframe'.
        + specialize (Hmir q). rewrite <- app_assoc in Hmir. done.
        + intros d' Hd'. apply not_prefix_sibling. intros ->. done.
      - intros p Hp. rewrite Hframe'.
        + apply Hframe. apply Hp. left.
        + intros d' Hd'. apply Hp. by right. }
    specialize (Hloop es w1 IH Hnd Hwfs).
    specialize (Hloop ltac:(intros d ch Hin; rewrite tlookup_app, Hl; simpl;
                            by rewrite (assoc_NoDup _ _ _ Hnd Hin))).
    specialize (Hloop Hdir1).
    specialize (Hloop ltac:(intros d _ q; rewrite Hother1;
      [by apply Hbelow
      |apply app_cons_ne])).
    cbv zeta in Hloop. specialize (Hloop Hr). destruct Hloop as [Hmir Hframe].
    split.
    + intros [|d q].
      * rewrite app_nil_r, Hframe; [done|]. intros d _. apply not_prefix_longer.
      * cbn [tlookup]. destruct (assoc d es) as [ch|] eqn:Ea.
        { by apply Hmir, assoc_Some_in. }
        apply assoc_None in Ea. rewrite Hframe.
        -- rewrite Hother1; [by rewrite Hbelow|].
           apply app_cons_ne.
        -- intros d' Hd'. apply not_prefix_sibling. intros ->. done.
    + intros p Hp. rewrite Hframe.
      * apply Hother1. intros ->. by apply Hp.
      * intros d _ Hpre. apply Hp. etrans; [|exact Hpre]. by apply prefix_app_r.
Qed.

Lemma wf_tlookup p : forall n m,
  wf_tnode n -> tlookup n p = Some m -> wf_tnode m.
Proof.
  induction p as [|x p IH]; intros n m Hwf Hl; simpl in Hl; [by injection Hl as <-|].
  destruct n as [c|es]; [done|]. destruct (assoc x es) as [ch|] eqn:Ea; [|done].
  apply wf_tnode_TDir in Hwf as [_ Hwfs]. apply assoc_Some_in in Ea.
  rewrite Forall_forall in Hwfs. apply (IH ch m); [|done]. by apply (Hwfs (x, ch)).
Qed.

(** After a successful call the destination is the template, node for
    node and byte for byte, and holds nothing else, whatever was there
    before: provided no write and no mkdir failed, the two calls whose
    errors the function drops. *)
Lemma createAnsibleFiles_mirrors_template w :
  wf_tnode ansibleFS ->
  let r := createAnsibleFiles folder w in
  r.1 = None ->
  forall q, fsys r.2 !! (folder ++ "ansible" :: q) =
            node_of <$> tlookup ansibleFS ("ansible" :: q).
Proof.
  intros Hwf r Hr q. subst r.
  unfold createAnsibleFiles, os_RemoveAll, os_MkdirAll, fs_WalkDir in *.
  unfold bind, attempt, ret, errorIf in *. cbn [fst snd fsys trace andb] in *.
  destruct (negb (fails env (trace w) _)); [|done]. cbn [fst snd fsys trace] in *.
  set (dest := folder ++ ["ansible"]) in *.
  set (fs1 := remove_all dest (fsys w)) in *.
  destruct (bool_decide (is_Some (mkdir_all fs1 [] dest)) && _) eqn:Emk; [|done].
  apply andb_prop in Emk as [Emk _]. apply bool_decide_eq_true in Emk as [fs2 Emk].
  rewrite Emk in *. cbn [default from_option id] in *.
  destruct (mkdir_all_spec _ _ _ _ Emk) as [Hdest Hframe]. cbn [app] in Hdest, Hframe.
  specialize (Hdest ltac:(by destruct folder)).
  destruct (tlookup ansibleFS ["ansible"]) as [n|] eqn:En.
  2:{ unfold copyEntry in Hr. done. }
  match type of Hr with context [walkDir _ _ n ?w'] => set (w2 := w') in * end.
  pose proof (walkDir_mirror n ["ansible"] w2 (wf_tlookup _ _ _ Hwf En)
                ltac:(done) En) as Hm.
  specialize (Hm ltac:(right; exact Hdest)).
  specialize (Hm ltac:(intros q' Hq'; cbn [fsys w2]; rewrite Hframe;
    [unfold fs1; rewrite remove_all_lookup, decide_True; [done|by apply prefix_app_r]
    |destruct q'; [done|apply not_prefix_app_cons]])).
  cbv zeta in Hm.
  destruct (walkDir (copyEntry folder) ["ansible"] n w2) as [[e|] w3]; [done|].
  destruct (Hm eq_refl) as [Hmir _]. cbn [fst snd] in *.
  specialize (Hmir q). unfold dest in Hmir. rewrite <- app_assoc in Hmir. cbn [app] in Hmir.
  rewrite Hmir. change ("ansible" :: q) with (["ansible"] ++ q).
  by rewrite tlookup_app, En.
Qed.

End Mirror.

(** ** A healthy service keeps [Start] blocked *)

Lemma retry_Do_up c w :
  fails env (trace w) CContextErr = false ->
  (forall h a, fails env h (CIsWebServerUp a) = false) ->
  let api := NewTrentoApiService (ApiHost (config c)) (ApiPort (config c)) in
  retry_Do startRetryConfig (probe c) None w =
  (Some api, None,
   mkWorld (fsys w) (trace w ++ [(CContextErr, true); (CIsWebServerUp api, true)])).
Proof.
  intros Hctx Hup api. unfold retry_Do, bind, attempt, ret.
  cbn [fst snd fsys trace andb]. rewrite Hctx. cbn [negb].
  change (attempts startRetryConfig) with 8.
  rewrite retryLoop_S, probe_run. cbv zeta. rewrite Hup.
  cbn [negb fst snd fsys trace]. by rewrite <- app_assoc.
Qed.

(** With the two playbooks in the template, a successful provisioning
    leaves them in the workspace.  So when provisioning succeeds, no write
    and no mkdir fails, the web server is up and the context is never
    cancelled, [Start] is still blocked after any number of rounds. *)
Lemma Start_blocks_when_healthy (fuel : nat) (c : runnerService) (w : World) :
  wf_tnode ansibleFS ->
  is_Some (tlookup ansibleFS AnsibleMain) ->
  is_Some (tlookup ansibleFS AnsibleMeta) ->
  (forall h p content, fails env h (CWrite p content) = false) ->
  (forall h p, fails env h (CMkdir p) = false) ->
  (forall h a, fails env h (CIsWebServerUp a) = false) ->
  (forall h, fails env h CContextErr = false) ->
  (forall h, fails env h (CTickerWait (Interval (config c))) = false) ->
  (createAnsibleFiles (AnsibleFolder (config c)) w).1 = None ->
  (Start fuel c w).1.2 = Running.
Proof.
  intros Hwf [n1 Hmain] [n2 Hmeta] Hwrite Hmkdir Hup Hctx Hnever Hp.
  pose proof (createAnsibleFiles_mirrors_template (AnsibleFolder (config c))
                Hwrite Hmkdir w Hwf Hp) as Hmir. cbv zeta in Hmir.
  unfold Start, bind, ret, emit.
  destruct (createAnsibleFiles (AnsibleFolder (config c)) w) as [[e|] pw]; [done|].
  cbn [fst snd] in *. rewrite retry_Do_up by done. cbn [fst snd fsys trace].
  match goal with |- context [startCheckRunnerTicker fuel ?c' ?w'] =>
    pose proof (startCheckRunnerTicker_running fuel c' w') as Hrun;
    destruct (startCheckRunnerTicker fuel c' w') as [[c'' o] w'']
  end.
  cbn [fst snd fsys config setTrentoApi] in Hrun. rewrite Hrun; [done| | |done].
  - specialize (Hmir ["check.yml"]). unfold AnsibleMain in *. rewrite Hmain in Hmir.
    unfold exists_path. rewrite Hmir. by destruct (AnsibleFolder (config c)).
  - specialize (Hmir ["meta.yml"]). unfold AnsibleMeta in *. rewrite Hmeta in Hmir.
    unfold exists_path. rewrite Hmir. by destruct (AnsibleFolder (config c)).
Qed.

(** ** What [createAnsibleFiles] touches, in every run *)

Section Extent.

Variable folder : path.

Lemma copyEntry_frame name d e w p :
  p <> folder ++ name ->
  fsys (copyEntry folder name d e w).2 !! p = fsys w !! p.
Proof.
  intros Hp. unfold copyEntry, os_Create, os_Mkdir, fmt_Fprintf.
  unfold bind, attempt, ret, errorIf.
  destruct e as [e|]; [done|].
  destruct (negb (default false d)).
  - destruct (embed_ReadFile name) as [c|e]; [|done].
    cbn [fst snd fsys trace].
    destruct (nonempty _ && _ && _ && _); cbn [fst snd fsys trace]; [|done].
    destruct (is_file _ _ && _); cbn [fst snd fsys trace];
      rewrite ?lookup_insert_ne; done.
  - cbn [fst snd fsys trace].
    destruct (nonempty _ && _ && _ && _); cbn [fst snd fsys trace];
      rewrite ?lookup_insert_ne; done.
Qed.

Lemma prefix_snoc_weaken (base : path) d p :
  ~ base `prefix_of` p -> ~ (base ++ [d]) `prefix_of` p.
Proof. intros H Hp. apply H. etrans; [|exact Hp]. by apply prefix_app_r. Qed.

Lemma walkDir_frame n : forall name w p,
  ~ (folder ++ name) `prefix_of` p ->
  fsys (walkDir (copyEntry folder) name n w).2 !! p = fsys w !! p.
Proof.
  induction n as [c|es IH] using tnode_induction; intros name w p Hp.
  - cbn [walkDir]. apply copyEntry_frame. intros ->. by apply Hp.
  - rewrite walkDir_TDir. unfold bind.
    pose proof (copyEntry_frame name (Some true) None w p
                  ltac:(intros ->; by apply Hp)) as H1.
    destruct (copyEntry folder name (Some true) None w) as [[e|] w1];
      cbn [fst snd] in *; [done|].
    rewrite <- H1. clear H1. revert w1.
    induction es as [|[d ch] es IHes]; intros w1; [done|].
    apply Forall_cons in IH as [IHch IH].
    cbn [walkEntries]. unfold bind.
    pose proof (IHch (name ++ [d]) w1 p) as H2. cbn [snd] in H2.
    rewrite app_assoc in H2. specialize (H2 (prefix_snoc_weaken _ _ _ Hp)).
    destruct (walkDir (copyEntry folder) (name ++ [d]) ch w1) as [[e|] w2];
      cbn [fst snd] in *; [done|].
    rewrite <- H2. by apply IHes.
Qed.

Lemma copyEntry_file_extent name c w :
  tlookup ansibleFS name = Some (TFile c) ->
  let p := folder ++ name in
  let r := copyEntry folder name (Some false) None w in
  r.1 = None ->
  fsys r.2 !! p = Some (File c) \/ fsys r.2 !! p = Some (File []).
Proof.
  intros Hl p r. subst r.
  unfold copyEntry, embed_ReadFile, os_Create, fmt_Fprintf. rewrite Hl. fold p.
  unfold bind, attempt, ret, errorIf. cbn [negb default from_option id fst snd fsys trace].
  destruct (nonempty p && _ && _ && _); cbn [fst snd fsys trace]; [|done].
  intros _. destruct (is_file _ _ && _); cbn [fsys];
    rewrite ?lookup_insert_eq; auto.
Qed.

Lemma copyEntry_dir_extent name w :
  let p := folder ++ name in
  let r := copyEntry folder name (Some true) None w in
  r.1 = None /\ (fsys r.2 !! p = fsys w !! p \/ fsys r.2 !! p = Some Dir).
Proof.
  intros p r. subst r. unfold copyEntry, os_Mkdir. fold p.
  unfold bind, attempt, ret. cbn [negb default from_option id fst snd fsys trace].
  split; [done|]. destruct (nonempty p && _ && _ && _); cbn [fsys];
    rewrite ?lookup_insert_eq; auto.
Qed.

Lemma walkDir_extent n : forall name w,
  wf_tnode n -> name <> [] -> tlookup ansibleFS name = Some n ->
  (fsys w !! (folder ++ name) = None \/ fsys w !! (folder ++ name) = Some Dir) ->
  (forall q, q <> [] -> fsys w !! ((folder ++ name) ++ q) = None) ->
  let r := walkDir (copyEntry folder) name n w in
  r.1 = None ->
  forall q, copied (tlookup n q) (fsys r.2 !! ((folder ++ name) ++ q)).
Proof.
  induction n as [c|es IH] using tnode_induction;
    intros name w Hwf Hname Hl Hat Hbelow r Hr.
  - (* a file *)
    subst r. cbn [walkDir] in *. intros [|x q].
    + rewrite app_nil_r. cbn [tlookup copied]. by apply copyEntry_file_extent.
    + cbn [tlookup copied]. rewrite copyEntry_frame by apply app_cons_ne.
      by apply Hbelow.
  - (* a directory *)
    apply wf_tnode_TDir in Hwf as [Hnd Hwfs].
    subst r. rewrite walkDir_TDir in Hr |- *. unfold bind in Hr |- *.
    destruct (copyEntry_dir_extent name w) as [Hc Hdir].
    pose proof (fun p => copyEntry_frame name (Some true) None w p) as Hother.
    destruct (copyEntry folder name (Some true) None w) as [e w1].
    cbn [fst snd] in Hc, Hdir, Hother, Hr |- *. subst e.
    assert (Hat1 : fsys w1 !! (folder ++ name) = Some Dir \/
                   fsys w1 !! (folder ++ name) = None).
    { destruct Hdir as [->| ->]; [destruct Hat as [->| ->]|]; auto. }
    assert (Hfresh1 : forall d q, fsys w1 !! ((folder ++ name) ++ d :: q) = None).
    { intros d q. rewrite Hother by apply app_cons_ne. by apply Hbelow. }
    clear Hdir Hother Hat Hbelow w.
    (* the loop over the entries *)
    assert (Hloop : forall es' w2,
      Forall (fun e => forall name w, wf_tnode e.2 -> name <> [] ->
                tlookup ansibleFS name = Some e.2 ->
                (fsys w !! (folder ++ name) = None \/ fsys w !! (folder ++ name) = Some Dir) ->
                (forall q, q <> [] -> fsys w !! ((folder ++ name) ++ q) = None) ->
                let r := walkDir (copyEntry folder) name e.2 w in
                r.1 = None ->
                forall q, copied (tlookup e.2 q) (fsys r.2 !! ((folder ++ name) ++ q))) es' ->
      NoDup (map fst es') -> Forall (fun e => wf_tnode e.2) es' ->
      (forall d ch, (d, ch) ∈ es' -> tlookup ansibleFS (name ++ [d]) = Some ch) ->
      (forall d, d ∈ map fst es' -> forall q, fsys w2 !! ((folder ++ name) ++ d :: q) = None) ->
      let r := walkEntries (copyEntry folder) name es' w2 in
      r.1 = None ->
      (forall d ch, (d, ch) ∈ es' ->
         forall q, copied (tlookup ch q) (fsys r.2 !! ((folder ++ name) ++ d :: q))) /\
      (forall p, (forall d, d ∈ map fst es' -> ~ ((folder ++ name) ++ [d]) `prefix_of` p) ->
         fsys r.2 !! p = fsys w2 !! p)).
    { clear IH Hnd Hwfs Hr Hat1 Hfresh1.
      induction es' as [|[d ch] es' IHes]; intros w2 IH Hnd Hwfs Hlk Hfresh r Hr.
      { subst r. simpl. split; [|done]. intros d ch Hin. by apply elem_of_nil in Hin. }
      subst r. cbn [walkEntries] in Hr |- *. unfold bind in Hr |- *.
      apply Forall_cons in IH as [IHch IH]. apply Forall_cons in Hwfs as [Hwfch Hwfs].
      cbn [map fst] in Hnd. apply NoDup_cons in Hnd as [Hd Hnd].
      assert (Hbase : folder ++ name ++ [d] = (folder ++ name) ++ [d]) by apply app_assoc.
      specialize (IHch (name ++ [d]) w2 Hwfch). cbn [snd] in IHch. rewrite Hbase in IHch.
      specialize (IHch ltac:(by destruct name) (Hlk d ch ltac:(left))).
      specialize (IHch ltac:(left; rewrite <- (Hfresh d ltac:(left) []); done)).
      specialize (IHch ltac:(intros q _; rewrite <- app_assoc; apply Hfresh; left)).
      pose proof (fun p => walkDir_frame ch (name ++ [d]) w2 p) as Hframe.
      rewrite Hbase in Hframe.
      destruct (walkDir (copyEntry folder) (name ++ [d]) ch w2) as [e w3] eqn:Ew.
      cbn [fst snd] in IHch, Hr, Hframe. destruct e as [e|]; [done|].
      specialize (IHch eq_refl).
      specialize (IHes w3 IH Hnd Hwfs).
      specialize (IHes ltac:(intros d' ch' Hin; apply Hlk; by right)).
      specialize (IHes ltac:(intros d' Hd' q; rewrite Hframe;
                             [apply Hfresh; by right
                             |apply not_prefix_sibling; intros ->; done])).
      cbv zeta in IHes. specialize (IHes Hr). destruct IHes as [Hmir' Hframe'].
      split.
      - intros d0 ch0 Hin q. apply elem_of_cons in Hin as [[= -> ->]|Hin]; [|by apply Hmir'].
        rewrite Hframe'.
        + specialize (IHch q). rewrite <- app_assoc in IHch. done.
        + intros d' Hd'. apply not_prefix_sibling. intros ->. done.
      - intros p Hp. rewrite Hframe'.
        + apply Hframe. apply Hp. left.
        + intros d' Hd'. apply Hp. by right. }
    specialize (Hloop es w1 IH Hnd Hwfs).
    specialize (Hloop ltac:(intros d ch Hin; rewrite tlookup_app, Hl; simpl;
                            by rewrite (assoc_NoDup _ _ _ Hnd Hin))).
    specialize (Hloop ltac:(intros d _ q; apply Hfresh1)).
    cbv zeta in Hloop. specialize (Hloop Hr). destruct Hloop as [Hmir Hframe].
    intros [|d q].
    + rewrite app_nil_r, Hframe; [done|]. intros d _. apply not_prefix_longer.
    + cbn [tlookup]. destruct (assoc d es) as [ch|] eqn:Ea.
      { by apply Hmir, assoc_Some_in. }
      apply assoc_None in Ea. cbn [copied]. rewrite Hframe; [apply Hfresh1|].
      intros d' Hd'. apply not_prefix_sibling. intros ->. done.
Qed.

Lemma createAnsibleFiles_copied (w : World) (q : path) :
  wf_tnode ansibleFS ->
  (createAnsibleFiles folder w).1 = None ->
  copied (tlookup ansibleFS ("ansible" :: q))
         (fsys (createAnsibleFiles folder w).2 !! (folder ++ "ansible" :: q)).
Proof.
  intros Hwf Hr.
  unfold createAnsibleFiles, os_RemoveAll, os_MkdirAll, fs_WalkDir in *.
  unfold bind, attempt, ret, errorIf in *. cbn [fst snd fsys trace andb] in *.
  destruct (negb (fails env (trace w) _)); [|done]. cbn [fst snd fsys trace] in *.
  set (dest := folder ++ ["ansible"]) in *.
  set (fs1 := remove_all dest (fsys w)) in *.
  destruct (bool_decide (is_Some (mkdir_all fs1 [] dest)) && _) eqn:Emk; [|done].
  apply andb_prop in Emk as [Emk _]. apply bool_decide_eq_true in Emk as [fs2 Emk].
  rewrite Emk in *. cbn [default from_option id] in *.
  destruct (mkdir_all_spec _ _ _ _ Emk) as [Hdest Hframe]. cbn [app] in Hdest, Hframe.
  specialize (Hdest ltac:(by destruct folder)).
  destruct (tlookup ansibleFS ["ansible"]) as [n|] eqn:En.
  2:{ unfold copyEntry in Hr. done. }
  match type of Hr with context [walkDir _ _ n ?w'] => set (w2 := w') in * end.
  pose proof (walkDir_extent n ["ansible"] w2 (wf_tlookup _ _ _ Hwf En)
                ltac:(done) En) as Hm.
  specialize (Hm ltac:(right; exact Hdest)).
  specialize (Hm ltac:(intros q' Hq'; cbn [fsys w2]; rewrite Hframe;
    [unfold fs1; rewrite remove_all_lookup, decide_True; [done|by apply prefix_app_r]
    |destruct q'; [done|apply not_prefix_app_cons]])).
  cbv zeta in Hm.
  destruct (walkDir (copyEntry folder) ["ansible"] n w2) as [[e|] w3]; [done|].
  specialize (Hm eq_refl q). cbn [fst snd] in *.
  unfold dest in Hm. rewrite <- app_assoc in Hm. cbn [app] in Hm.
  change ("ansible" :: q) with (["ansible"] ++ q).
  rewrite tlookup_app, En. exact Hm.
Qed.

(** X1. Whether it succeeds or fails, [createAnsibleFiles] changes nothing
    outside the destination [folder/ansible], except that it may create
    the directories leading to it. *)
Theorem createAnsibleFiles_frame (w : World) (p : path) :
  ~ (folder ++ ["ansible"]) `prefix_of` p ->
  ~ p `prefix_of` (folder ++ ["ansible"]) ->
  fsys (createAnsibleFiles folder w).2 !! p = fsys w !! p.
Proof.
  intros Hbelow Habove.
  unfold createAnsibleFiles, os_RemoveAll, os_MkdirAll, fs_WalkDir.
  unfold bind, attempt, ret, errorIf. cbn [fst snd fsys trace andb].
  destruct (negb (fails env (trace w) _)); cbn [fst snd fsys trace]; [|done].
  assert (H1 : remove_all (folder ++ ["ansible"]) (fsys w) !! p = fsys w !! p).
  { rewrite remove_all_lookup. by rewrite decide_False. }
  destruct (bool_decide _ && _) eqn:Emk; cbn [fst snd fsys trace]; [|done].
  apply andb_prop in Emk as [Emk _]. apply bool_decide_eq_true in Emk as [fs2 Emk].
  rewrite Emk. cbn [default from_option id].
  destruct (mkdir_all_spec _ _ _ _ Emk) as [_ Hframe]. cbn [app] in Hframe.
  rewrite <- H1, <- (Hframe p Habove).
  destruct (tlookup ansibleFS ["ansible"]) as [n|].
  - match goal with |- context [walkDir _ _ n ?w'] =>
      pose proof (walkDir_frame n ["ansible"] w' p Hbelow) as H3;
      destruct (walkDir (copyEntry folder) ["ansible"] n w') as [[e|] w3]
    end; cbn [fst snd] in *; done.
  - done.
Qed.


End Extent.

(** ** No stale artifact survives the removal *)

Section NoStale.

Variable folder : path.









End NoStale.

(** ** The whole file system after a faultless call *)

Lemma mkdir_all_lookup rest : forall fs pre fs' q,
  mkdir_all fs pre rest = Some fs' ->
  fs' !! q = if bool_decide (pre `prefix_of` q /\ q `prefix_of` pre ++ rest /\ q <> pre)
             then Some Dir else fs !! q.
Proof.
  induction rest as [|x rest IH]; intros fs pre fs' q H; simpl in H.
  - injection H as <-. rewrite app_nil_r.
    case_bool_decide as Hc; [|done]. destruct Hc as (H1 & H2 & H3).
    exfalso. apply H3. symmetry. apply prefix_length_eq; [done|].
    by apply prefix_length.
  - set (p := pre ++ [x]) in *.
    assert (Happ : pre ++ x :: rest = p ++ rest) by (unfold p; by rewrite <- app_assoc).
    assert (Hcond : (pre `prefix_of` q /\ q `prefix_of` pre ++ x :: rest /\ q <> pre) <->
                    q = p \/ (p `prefix_of` q /\ q `prefix_of` p ++ rest /\ q <> p)).
    { split.
      - intros ([k ->] & H2 & H3).
        apply prefix_app_inv in H2.
        destruct k as [|y k]; [by rewrite app_nil_r in H3|].
        apply prefix_cons_inv_1 in H2 as Hy. subst y.
        apply prefix_cons_inv_2 in H2.
        assert (Hq : pre ++ x :: k = p ++ k) by (unfold p; by rewrite <- app_assoc).
        rewrite Hq. destruct k as [|z k]; [left; by rewrite app_nil_r|].
        right. split; [by apply prefix_app_r|]. split; [by apply prefix_app|].
        apply app_cons_ne.
      - intros [->|(H1 & H2 & H3)].
        + split; [unfold p; by apply prefix_app_r|]. rewrite Happ.
          split; [by apply prefix_app_r|]. unfold p. apply app_cons_ne.
        + split; [etrans; [|exact H1]; unfold p; by apply prefix_app_r|].
          rewrite Happ. split; [done|]. intros ->.
          apply prefix_length in H1. unfold p in H1. rewrite length_app in H1.
          simpl in H1. lia. }
    assert (Hstep : exists fs'', mkdir_all fs'' p rest = Some fs' /\
                      fs'' !! p = Some Dir /\ forall q, q <> p -> fs'' !! q = fs !! q).
    { destruct (fs !! p) as [[|c]|] eqn:E; [| done |].
      - exists fs. done.
      - exists (<[p:=Dir]> fs). split; [done|]. split; [by rewrite lookup_insert_eq|].
        intros q' Hq'. by rewrite lookup_insert_ne. }
    destruct Hstep as (fs'' & Hmk & Hp & Hothers).
    rewrite (IH _ _ _ q Hmk).
    case_bool_decide as H1; case_bool_decide as H2; try done.
    + exfalso. apply H2, Hcond. by right.
    + apply Hcond in H2 as [->|H2]; [done|contradiction].
    + apply Hothers. intros ->. apply H2, Hcond. by left.
Qed.

Section Result.

Variable folder : path.

(** Outside the destination, a call that returned nil has turned the path
    to the destination into directories and changed nothing else. *)
Lemma createAnsibleFiles_above (w : World) (p : path) :
  (createAnsibleFiles folder w).1 = None ->
  ~ (folder ++ ["ansible"]) `prefix_of` p ->
  fsys (createAnsibleFiles folder w).2 !! p =
    if bool_decide (p `prefix_of` folder ++ ["ansible"] /\ p <> [])
    then Some Dir else fsys w !! p.
Proof.
  intros Hr Hbelow.
  unfold createAnsibleFiles, os_RemoveAll, os_MkdirAll, fs_WalkDir in *.
  unfold bind, attempt, ret, errorIf in *. cbn [fst snd fsys trace andb] in *.
  destruct (negb (fails env (trace w) _)); cbn [fst snd fsys trace] in *; [|done].
  assert (H1 : remove_all (folder ++ ["ansible"]) (fsys w) !! p = fsys w !! p).
  { rewrite remove_all_lookup. by rewrite decide_False. }
  destruct (bool_decide _ && _) eqn:Emk; cbn [fst snd fsys trace] in *; [|done].
  apply andb_prop in Emk as [Emk _]. apply bool_decide_eq_true in Emk as [fs2 Emk].
  rewrite Emk in *. cbn [default from_option id] in *.
  pose proof (mkdir_all_lookup _ _ _ _ p Emk) as H2. cbn [app] in H2.
  rewrite H1 in H2.
  assert (H3 : fs2 !! p = if bool_decide (p `prefix_of` folder ++ ["ansible"] /\ p <> [])
                          then Some Dir else fsys w !! p).
  { rewrite H2. pose proof (prefix_nil p) as Hnil.
    repeat case_bool_decide; try done; tauto. }
  rewrite <- H3. clear Hr.
  destruct (tlookup ansibleFS ["ansible"]) as [n|].
  - match goal with |- context [walkDir _ _ n ?w'] =>
      pose proof (walkDir_frame folder n ["ansible"] w' p Hbelow) as H4;
      destruct (walkDir (copyEntry folder) ["ansible"] n w') as [[e|] w3]
    end; cbn [fst snd] in *; done.
  - done.
Qed.

Hypothesis write_ok : forall h p c, fails env h (CWrite p c) = false.
Hypothesis mkdir_ok : forall h p, fails env h (CMkdir p) = false.

(** X4. When no write and no mkdir fails, a call that returned nil leaves
    a file system that depends on the one before only outside the
    destination: at and below [folder/ansible] it is the template, node for
    node and byte for byte, and nothing else; the directories on the way to
    the destination exist; every other path is as it was. *)
Theorem createAnsibleFiles_result (w : World) (p : path) :
  wf_tnode ansibleFS ->
  (createAnsibleFiles folder w).1 = None ->
  fsys (createAnsibleFiles folder w).2 !! p =
    if bool_decide ((folder ++ ["ansible"]) `prefix_of` p)
    then node_of <$> tlookup ansibleFS (drop (length folder) p)
    else if bool_decide (p `prefix_of` folder ++ ["ansible"] /\ p <> [])
         then Some Dir
         else fsys w !! p.
Proof.
  intros Hwf Hr. case_bool_decide as Hp.
  - destruct Hp as [q ->]. rewrite <- !app_assoc. cbn [app].
    rewrite drop_app_length.
    by apply (createAnsibleFiles_mirrors_template folder write_ok mkdir_ok w Hwf Hr q).
  - by apply createAnsibleFiles_above.
Qed.

(** X5. Under the same conditions the function is idempotent: a second
    successful call leaves the whole file system as the first one left
    it. *)
Theorem createAnsibleFiles_idempotent (w : World) :
  wf_tnode ansibleFS ->
  let r1 := createAnsibleFiles folder w in
  let r2 := createAnsibleFiles folder r1.2 in
  r1.1 = None -> r2.1 = None -> fsys r2.2 = fsys r1.2.
Proof.
  intros Hwf r1 r2 H1 H2. apply map_eq. intros p. subst r2.
  case (decide ((folder ++ ["ansible"]) `prefix_of` p)) as [[q ->]|Hp].
  - rewrite <- !app_assoc. cbn [app].
    rewrite (createAnsibleFiles_mirrors_template folder write_ok mkdir_ok r1.2 Hwf H2 q).
    symmetry.
    apply (createAnsibleFiles_mirrors_template folder write_ok mkdir_ok w Hwf H1 q).
  - rewrite (createAnsibleFiles_above r1.2 p H2 Hp).
    case_bool_decide as Ha; [|done].
    subst r1. rewrite (createAnsibleFiles_above w p H1 Hp).
    by rewrite bool_decide_true.
Qed.

End Result.

(** ** The destination is wiped once *)

Lemma emits_copyEntry_copy folder name d e :
  emits copyCall (copyEntry folder name d e).
Proof. unfold copyEntry, os_Create, os_Mkdir, fmt_Fprintf. emits_go. Qed.

Lemma createAnsibleFiles_trace folder w :
  exists ok rest,
    trace (createAnsibleFiles folder w).2 =
      trace w ++ (CRemoveAll (folder ++ ["ansible"]), ok) :: rest /\
    Forall (fun e => copyCall e.1) rest.
Proof.
  unfold createAnsibleFiles, os_RemoveAll.
  set (k := fun err : option error => match err with
     | Some e => ret (Some e)
     | None => err <- os_MkdirAll (folder ++ ["ansible"]);;
               match err with
               | Some e => ret (Some e)
               | None => err <- fs_WalkDir ["ansible"] (copyEntry folder);;
                         match err with Some e => ret (Some e) | None => ret None end
               end
     end).
  assert (Hk : forall err, emits copyCall (k err)).
  { intros [e|]; unfold k, os_MkdirAll, fs_WalkDir; emits_go.
    - apply emits_walkDir. intros. apply emits_copyEntry_copy.
    - apply emits_copyEntry_copy. }
  unfold bind at 1. unfold bind at 1. unfold attempt, ret at 1.
  cbn [fst snd fsys trace andb].
  match goal with |- context [k ?err ?w'] =>
    destruct (Hk err w') as (rest & E & F); exists (negb (fails env (trace w)
      (CRemoveAll (folder ++ ["ansible"])))), rest
  end.
  split; [|done]. cbn [trace] in E. rewrite E, <- app_assoc. done.
Qed.

(** X6. [Start] removes the destination once, as the first thing it does,
    and never again: not while retrying the probe and not in any round of
    the loop. *)
Theorem Start_wipes_once (fuel : nat) (c : runnerService) (w : World) :
  let evs := since w (Start fuel c w).2 in
  (exists ok, evs !! 0 = Some (CRemoveAll (AnsibleFolder (config c) ++ ["ansible"]), ok)) /\
  countb isRemoveAll evs = 1.
Proof.
  intros evs.
  destruct (Start_anatomy fuel c w) as (evs_p & evs_q & evs_l & Ep & Etr & _ & Fq & Hcases).
  cbv zeta in Ep, Hcases.
  destruct (createAnsibleFiles_trace (AnsibleFolder (config c)) w) as (ok & rest & Ep' & Frest).
  rewrite Ep in Ep'. apply app_inv_head in Ep'. subst evs_p.
  assert (Hevs : evs = ((CRemoveAll (AnsibleFolder (config c) ++ ["ansible"]), ok) :: rest)
                       ++ evs_q ++ evs_l) by (by apply since_app).
  rewrite Hevs. split; [by exists ok|].
  assert (Fl : Forall (fun e => lateCall e.1) evs_l).
  { destruct Hcases as [(e&_&_&_&->)|[(_&_&->&_)|[(_&_&->&_)|(_&_&_&_&_&evs'&->&Hl)]]];
      try constructor; [done|].
    cbv zeta in Hl. destruct Hl as [(_&_&F&_)|(_&_&evs''&->&F&_)].
    - eapply Forall_impl; [exact F|]. by intros [[] ?].
    - apply Forall_app. split; [|by repeat constructor].
      eapply Forall_impl; [exact F|]. by intros [[] ?]. }
  cbn [app countb isRemoveAll]. rewrite !countb_app.
  rewrite (countb_none copyCall isRemoveAll rest), (countb_none (retryCall startRetryConfig 8) isRemoveAll evs_q),
    (countb_none lateCall isRemoveAll evs_l); try done.
  all: by intros [] ?.
Qed.

(** ** The phases of [Start] *)

Lemma Start_trace fuel c w :
  let p := createAnsibleFiles (AnsibleFolder (config c)) w in
  let q := retry_Do startRetryConfig (probe c) None p.2 in
  let r := Start fuel c w in
  match p.1 with
  | Some e => r = (c, Returned (Some e), p.2)
  | None =>
      exists evs_l,
        trace r.2 = trace q.2 ++ evs_l /\
        Forall (fun e => lateCall e.1) evs_l /\
        match q.1.2 with
        | Some e => r.1 = (c, Returned (Some e)) /\ evs_l = []
        | None => r.1.2 = Running \/ r.1.2 = Returned None
        end
  end.
Proof.
  intros p q r. subst r. unfold Start, bind, ret, emit. fold p.
  destruct p as [[e|] pw] eqn:Ep; cbn [fst snd] in *; [done|].
  subst q. destruct (retry_Do startRetryConfig (probe c) None pw) as [[a [e|]] qw];
    cbn [fst snd] in *.
  { exists []. by rewrite app_nil_r. }
  match goal with |- context [startCheckRunnerTicker fuel ?c' ?w'] =>
    destruct (emits_startCheckRunnerTicker fuel c' w') as (evs & El & Fl);
    destruct (startCheckRunnerTicker fuel c' w') as [[c'' [[]|]] sw]
  end; cbn [fst snd fsys trace] in *.
  - exists ((CGo, true) :: evs ++ [(CWgDone, true)]).
    rewrite El, <- !app_assoc. split; [done|]. split; [|auto].
    constructor; [done|]. apply Forall_app. split; [|by repeat constructor].
    eapply Forall_impl; [exact Fl|]. by intros [[] ?].
  - exists ((CGo, true) :: evs). rewrite El, <- !app_assoc. split; [done|].
    split; [|auto]. constructor; [done|].
    eapply Forall_impl; [exact Fl|]. by intros [[] ?].
Qed.

Lemma since_trans w1 w2 w3 :
  trace w1 `prefix_of` trace w2 -> trace w2 `prefix_of` trace w3 ->
  since w1 w3 = since w1 w2 ++ since w2 w3.
Proof.
  intros [e1 E1] [e2 E2]. unfold since. rewrite E2, E1.
  rewrite (drop_app_length (trace w1 ++ e1) e2), <- app_assoc.
  by rewrite !drop_app_length.
Qed.

(** X7. [Start] does nothing of the pipeline before a liveness probe has
    succeeded.  Without a successful probe it starts no goroutine, builds
    no runner, runs no playbook, fetches no topology, writes no inventory
    and waits on no ticker; with one, all of that comes after the probe.
    And provisioning is over before the first probe. *)
Theorem Start_gated_by_probe (fuel : nat) (c : runnerService) (w : World) :
  let evs := since w (Start fuel c w).2 in
  (countb probeOk evs = 0 -> Forall (fun e => ~ lateCall e.1) evs) /\
  (forall i j e1 e2,
     evs !! i = Some e1 -> probeOk e1 = true ->
     evs !! j = Some e2 -> lateCall e2.1 -> i < j) /\
  (forall i j e1 e2,
     evs !! i = Some e1 -> fsCall e1.1 = true ->
     evs !! j = Some e2 -> isProbe e2 = true -> i < j).
Proof.
  intros evs.
  destruct (Start_anatomy fuel c w) as (evs_p & evs_q & evs_l & _ & Etr & Fp & Fq & Hcases).
  cbv zeta in Hcases.
  assert (Hevs : evs = evs_p ++ evs_q ++ evs_l) by (by apply since_app).
  rewrite Hevs. clear evs Hevs Etr.
  assert (Fl : Forall (fun e => lateCall e.1) evs_l /\
               (countb probeOk evs_q = 0 -> evs_l = [])).
  { destruct Hcases as [(e&_&_&_&->)|[(_&_&->&_)|[(_&_&->&_)|(_&Hok&_&_&_&evs&->&Hl)]]];
      try (split; [constructor|done]).
    split; [|lia]. constructor; [done|]. cbv zeta in Hl.
    destruct Hl as [(_&_&F&_)|(_&_&evs'&->&F&_)].
    - eapply Forall_impl; [exact F|]. by intros [[] ?].
    - apply Forall_app. split; [|by repeat constructor].
      eapply Forall_impl; [exact F|]. by intros [[] ?]. }
  destruct Fl as [Fl Hnil]. clear Hcases.
  rewrite Forall_forall in Fp, Fq, Fl.
  assert (Pnot : forall e, e ∈ evs_p -> ~ lateCall e.1 /\ probeOk e = false /\ isProbe e = false).
  { intros [[] []] Hin; specialize (Fp _ Hin); simpl in *;
      try discriminate; try contradiction; repeat split; try done; tauto. }
  assert (Qnot : forall e, e ∈ evs_q -> ~ lateCall e.1 /\ fsCall e.1 = false).
  { intros [[] []] Hin; specialize (Fq _ Hin); simpl in *;
      try discriminate; try contradiction; repeat split; try done; tauto. }
  assert (Lnot : forall e, e ∈ evs_l -> probeOk e = false /\ isProbe e = false /\ fsCall e.1 = false).
  { intros [[] []] Hin; specialize (Fl _ Hin); simpl in *;
      try discriminate; try contradiction; repeat split; try done; tauto. }
  split; [|split].
  - rewrite !countb_app. intros H0.
    assert (Hq0 : countb probeOk evs_q = 0) by lia.
    rewrite (Hnil Hq0), app_nil_r. apply Forall_app. split; apply Forall_forall.
    + intros e Hin. by apply Pnot.
    + intros e Hin. by apply Qnot.
  - intros i j e1 e2 H1 Hok H2 Hlate.
    apply lookup_app_Some in H1 as [H1|[Hi H1]].
    { apply list_elem_of_lookup_2 in H1. apply Pnot in H1 as (_&H1&_). congruence. }
    apply lookup_app_Some in H1 as [H1|[Hi' H1]].
    2:{ apply list_elem_of_lookup_2 in H1. apply Lnot in H1 as (H1&_). congruence. }
    apply lookup_lt_Some in H1.
    apply lookup_app_Some in H2 as [H2|[Hj H2]].
    { apply list_elem_of_lookup_2 in H2. apply Pnot in H2 as (H2&_). done. }
    apply lookup_app_Some in H2 as [H2|[Hj' H2]].
    { apply list_elem_of_lookup_2 in H2. apply Qnot in H2 as (H2&_). done. }
    lia.
  - intros i j e1 e2 H1 Hfs H2 Hprobe.
    apply lookup_app_Some in H1 as [H1|[Hi H1]].
    2:{ apply lookup_app_Some in H1 as [H1|[Hi' H1]];
        apply list_elem_of_lookup_2 in H1.
        - apply Qnot in H1 as (_&H1). congruence.
        - apply Lnot in H1 as (_&_&H1). congruence. }
    apply lookup_lt_Some in H1.
    apply lookup_app_Some in H2 as [H2|[Hj H2]]; [|lia].
    apply list_elem_of_lookup_2 in H2. apply Pnot in H2 as (_&_&H2). congruence.
Qed.

(** ** How long [Start] waits for the server *)

Lemma waitTotal_app evs1 evs2 :
  waitTotal (evs1 ++ evs2) = (waitTotal evs1 + waitTotal evs2)%Z.
Proof.
  induction evs1 as [|[c ok] evs1 IH]; simpl; [done|].
  destruct c; rewrite ?IH; lia.
Qed.

Lemma waitTotal_none (P : Call -> Prop) evs :
  (forall n d, ~ P (CRetryWait n d)) ->
  Forall (fun e => P e.1) evs -> waitTotal evs = 0%Z.
Proof.
  intros HP. induction 1 as [|[c ok] evs Hc _ IH]; simpl; [done|].
  destruct c; try done. by apply HP in Hc.
Qed.

Lemma retryLoop_waits cfg c :
  (0 <= delay cfg)%Z -> (0 < maxJitter cfg)%Z ->
  forall remaining n s lastErr w,
  let r := retryLoop cfg (probe c) n (S remaining) s lastErr w in
  let evs := since w r.2 in
  (0 <= waitTotal evs <= backoffMax cfg n remaining)%Z /\
  (r.1.2 = Some ErrServerNotAvailable ->
   (backoffMin cfg n remaining <= waitTotal evs)%Z).
Proof.
  intros Hd Hj.
  assert (Hmax : forall m n, (0 <= backoffMax cfg n m)%Z).
  { induction m as [|m IHm]; intros n; simpl; [lia|].
    specialize (IHm (S n)). pose proof (Z.pow_nonneg 2 (Z.of_nat n)). nia. }
  induction remaining as [|remaining IH]; intros n s lastErr w r evs;
    subst evs r; rewrite retryLoop_S, probe_run; cbv zeta;
    destruct (fails env (trace w) (CIsWebServerUp _)) eqn:E; simpl.
  - erewrite since_app; [|by rewrite <- app_assoc]. simpl. lia.
  - erewrite since_app; [|done]. simpl. lia.
  - match goal with |- context [RandomDelay cfg ?x] =>
      pose proof (delay_bounds cfg n x Hd Hj) as Hb;
      set (d := (BackOffDelay cfg n + RandomDelay cfg x)%Z) in *
    end.
    assert (0 <= delay cfg * 2 ^ Z.of_nat n)%Z
      by (apply Z.mul_nonneg_nonneg; [done|by apply Z.pow_nonneg]).
    destruct (fails env _ (CRetryWait n d)) eqn:Ew; simpl.
    + erewrite since_app; [|by rewrite <- !app_assoc]. simpl.
      specialize (Hmax remaining (S n)). split; [lia|done].
    + match goal with |- context [retryLoop cfg (probe c) (S n) (S remaining) ?s' ?le ?w'] =>
        destruct (IH (S n) s' le w') as [IH1 IH2];
        destruct (retryLoop_probe cfg c Hd Hj remaining (S n) s' le w')
          as (evs & Etr & _);
        cbv zeta in Etr, IH1, IH2;
        set (r' := retryLoop cfg (probe c) (S n) (S remaining) s' le w') in *
      end.
      rewrite (since_app _ _ _ Etr) in IH1, IH2.
      cbn [trace] in Etr. rewrite <- !app_assoc in Etr.
      rewrite (since_app _ _ _ Etr).
      cbn [app waitTotal backoffMax backoffMin]. clearbody r' d.
      set (D := (delay cfg * 2 ^ Z.of_nat n)%Z) in *. clearbody D.
      split; [lia|]. intros Hr. specialize (IH2 Hr). lia.
  - erewrite since_app; [|done]. cbn [waitTotal fst snd].
    pose proof (Hmax remaining (S n)).
    assert (0 <= delay cfg * 2 ^ Z.of_nat n)%Z
      by (apply Z.mul_nonneg_nonneg; [done|by apply Z.pow_nonneg]).
    split; [lia|done].
Qed.

(** X8. All the waits of one [Start] between probes add up to less than
    275 seconds (2s+4s+...+128s of back-off and seven jitters below 3s);
    and when provisioning succeeded and [Start] gave up with the probe's
    error, it had waited at least the 254 seconds of back-off. *)
Theorem Start_wait_bound (fuel : nat) (c : runnerService) (w : World) :
  let r := Start fuel c w in
  let evs := since w r.2 in
  (0 <= waitTotal evs < 275 * Second)%Z /\
  ((createAnsibleFiles (AnsibleFolder (config c)) w).1 = None ->
   r.1.2 = Returned (Some ErrServerNotAvailable) ->
   (254 * Second <= waitTotal evs)%Z).
Proof.
  intros r evs. subst evs r.
  pose proof (Start_trace fuel c w) as Ht. cbv zeta in Ht.
  destruct (emits_createAnsibleFiles (AnsibleFolder (config c)) w) as (evs_p & Ep & Fp).
  assert (Wp : waitTotal evs_p = 0%Z).
  { eapply (waitTotal_none (fun c => fsCall c = true)); [|exact Fp]. done. }
  destruct (createAnsibleFiles (AnsibleFolder (config c)) w) as [[e|] pw];
    cbn [fst snd] in *.
  { rewrite Ht. cbn [snd]. rewrite (since_app _ _ _ Ep), Wp. split; [done|done]. }
  destruct Ht as (evs_l & El & Fl & Hq).
  assert (Wl : waitTotal evs_l = 0%Z).
  { eapply (waitTotal_none lateCall); [|exact Fl]. intros n d H. exact H. }
  (* the retry phase *)
  assert (Hretry : let q := retry_Do startRetryConfig (probe c) None pw in
                   trace pw `prefix_of` trace q.2 /\
                   (0 <= waitTotal (since pw q.2) <= 275 * Second - 7)%Z /\
                   (q.1.2 = Some ErrServerNotAvailable ->
                    (254 * Second <= waitTotal (since pw q.2))%Z)).
  { unfold retry_Do, bind, attempt, ret. cbn [fst snd fsys trace andb].
    destruct (negb (fails env (trace pw) CContextErr)).
    - change (attempts startRetryConfig) with 8.
      match goal with |- context [retryLoop _ _ 0 8 None None ?w'] =>
        destruct (retryLoop_waits startRetryConfig c ltac:(done) ltac:(done) 7 0 None None w')
          as [H1 H2];
        destruct (retryLoop_probe startRetryConfig c ltac:(done) ltac:(done) 7 0 None None w')
          as (evs & Etr & _);
        cbv zeta in Etr, H1, H2;
        set (r' := retryLoop startRetryConfig (probe c) 0 8 None None w') in *
      end.
      rewrite (since_app _ _ _ Etr) in H1, H2. cbn [trace] in Etr.
      rewrite <- app_assoc in Etr. rewrite (since_app _ _ _ Etr).
      split; [by eexists|]. cbn [app waitTotal].
      change (backoffMax startRetryConfig 0 7) with (275 * Second - 7)%Z in H1.
      change (backoffMin startRetryConfig 0 7) with (254 * Second)%Z in H2.
      split; [lia|exact H2].
    - cbn [fst snd trace]. split; [by eexists|].
      erewrite since_app; [|done]. cbn [waitTotal]. split; [done|done]. }
  cbv zeta in Hretry.
  destruct (retry_Do startRetryConfig (probe c) None pw) as [[a qe] qw];
    cbn [fst snd] in *.
  destruct Hretry as ([evs_q Eq] & Hq1 & Hq2).
  rewrite (since_app _ _ _ Eq) in Hq1, Hq2.
  assert (Etr : trace (Start fuel c w).2 = trace w ++ evs_p ++ evs_q ++ evs_l).
  { rewrite El, Eq, Ep, <- !app_assoc. done. }
  rewrite (since_app _ _ _ Etr), !waitTotal_app, Wp, Wl.
  split; [lia|]. intros _ Hr.
  destruct qe as [e|].
  - destruct Hq as [Hq _]. rewrite Hq in Hr. injection Hr as ->.
    specialize (Hq2 eq_refl). lia.
  - destruct Hq as [Hq|Hq]; rewrite Hq in Hr; discriminate.
Qed.

(** ** The rounds of the loop *)

Ltac forall_runs Hcr :=
  repeat (constructor;
          [by (simpl; intros ? ?; simplify_eq; unfold withInventory;
               rewrite ?Hcr; auto)|]);
  constructor.

Lemma tick_runs mr c cr w :
  Check mr = false -> Check cr = true ->
  let file := AnsibleFolder (config c) ++ AnsibleHostFile in
  let r := tick mr (c, cr) w in
  let evs := since w r.2 in
  trace w `prefix_of` trace r.2 /\
  countb metaRun evs = 1 /\ countb checkRun evs <= 1 /\ countb tickFired evs = 0 /\
  Forall (fun e => forall a, e.1 = CRunPlaybook a -> a = mr \/ a = withInventory file cr) evs /\
  r.1.1 = c /\ (r.1.2 = cr \/ r.1.2 = withInventory file cr).
Proof.
  intros Hmr Hcr file r evs. subst evs r.
  unfold tick, RunPlaybook, NewClusterInventoryContent, CreateInventory, SetInventory.
  fold file. run.
  destruct (fails env (trace w) (CRunPlaybook mr)) eqn:E1; simpl.
  { split; [by eexists|]. erewrite since_app; [|done]. simpl. rewrite Hmr. simpl.
    repeat split; try done; try lia; auto.
    forall_runs Hcr. }
  destruct (fails env _ (CNewClusterInventoryContent _)) eqn:E2; simpl.
  { split; [rewrite <- app_assoc; by eexists|].
    erewrite since_app; [|by rewrite <- app_assoc]. simpl. rewrite Hmr. simpl.
    repeat split; try done; try lia; auto.
    forall_runs Hcr. }
  match goal with
  | |- context [if ?b then None else Some (ErrInventoryFile _)] =>
      destruct b eqn:E3
  end; simpl.
  2:{ split; [rewrite <- !app_assoc; by eexists|].
      erewrite since_app; [|by rewrite <- !app_assoc]. simpl. rewrite Hmr. simpl.
      repeat split; try done; try lia; auto.
      forall_runs Hcr. }
  match goal with |- context [exists_path ?f ?p] => destruct (exists_path f p) eqn:E4 end; simpl.
  2:{ split; [rewrite <- !app_assoc; by eexists|].
      erewrite since_app; [|by rewrite <- !app_assoc]. simpl. rewrite Hmr. simpl.
      repeat split; try done; try lia; auto.
      forall_runs Hcr. }
  split; [rewrite <- !app_assoc; by eexists|].
  erewrite since_app; [|by rewrite <- !app_assoc]. simpl. rewrite Hmr, Hcr. simpl.
  repeat split; try done; try lia; auto.
  - forall_runs Hcr.
  - right. unfold withInventory. by rewrite Hcr.
Qed.

Lemma withInventory_idem file a :
  withInventory file (withInventory file a) = withInventory file a.
Proof. done. Qed.

Lemma Repeat_rounds mr interval fuel : forall c cr0 cr w,
  Check mr = false -> Check cr = true ->
  let file := AnsibleFolder (config c) ++ AnsibleHostFile in
  (cr = cr0 \/ cr = withInventory file cr0) ->
  let r := Repeat fuel (tick mr) interval (c, cr) w in
  let evs := since w r.2 in
  trace w `prefix_of` trace r.2 /\
  countb metaRun evs = countb tickFired evs /\
  countb checkRun evs <= countb tickFired evs /\
  Forall (fun e => forall a, e.1 = CRunPlaybook a ->
                             a = mr \/ a = withInventory file cr0) evs.
Proof.
  induction fuel as [|fuel IH]; intros c cr0 cr w Hmr Hcr file Hcr0 r evs; subst evs r.
  { simpl. unfold since. rewrite drop_all. by repeat split. }
  rewrite Repeat_S. cbv zeta.
  destruct (fails env (trace w) (CTickerWait interval)); cbn [negb].
  { cbn [snd]. split; [by eexists|]. erewrite since_app; [|done].
    simpl. repeat split; try done. by repeat constructor. }
  set (w1 := mkWorld (fsys w) (trace w ++ [(CTickerWait interval, true)])).
  destruct (tick_runs mr c cr w1 Hmr Hcr) as (P1 & M1 & C1 & T1 & F1 & Hc & Hcr1).
  fold file in F1, Hcr1.
  destruct (tick mr (c, cr) w1) as [[c1 cr1] w2] eqn:Et. cbn [fst snd] in *. subst c1.
  assert (Hcr1' : cr1 = cr0 \/ cr1 = withInventory file cr0).
  { destruct Hcr1 as [->| ->]; [done|]. destruct Hcr0 as [->| ->]; auto. }
  assert (Hchk : Check cr1 = true).
  { destruct Hcr1 as [->| ->]; done. }
  destruct (IH c cr0 cr1 w2 Hmr Hchk Hcr1') as (P2 & M2 & C2 & F2).
  assert (P0 : trace w `prefix_of` trace w1) by (by eexists).
  split; [by repeat (etrans; [eassumption|])|].
  rewrite (since_trans w w1), (since_trans w1 w2); try done;
    [|by etrans; [exact P1|]].
  assert (E0 : since w w1 = [(CTickerWait interval, true)]) by (by apply since_app).
  rewrite E0, !countb_app, M1, T1, M2. cbn [countb metaRun checkRun tickFired].
  split; [lia|]. split; [lia|].
  constructor; [done|]. apply Forall_app. split; [|done].
  eapply Forall_impl; [exact F1|]. intros e He a Ha.
  destruct (He a Ha) as [->| ->]; [by left|right].
  destruct Hcr0 as [->| ->]; done.
Qed.

(** X9. In every run of the scheduling loop, each round that the ticker
    started ran the meta runner exactly once and the check runner at most
    once; the meta runner always ran as the factory built it, and the
    check runner never ran without the inventory path of the workspace
    bound to it. *)
Theorem loop_rounds (fuel : nat) (c : runnerService) (w : World) :
  let folder := AnsibleFolder (config c) in
  let evs := since w (startCheckRunnerTicker fuel c w).2 in
  countb metaRun evs = countb tickFired evs /\
  countb checkRun evs <= countb tickFired evs /\
  (forall a ok, (CRunPlaybook a, ok) ∈ evs ->
     a = mkAnsibleRunner (Some (folder ++ AnsibleMeta))
           (Some (folder ++ AnsibleConfigFile)) None false
           (Some (folder ++ CatalogDestinationFile)) None \/
     a = mkAnsibleRunner (Some (folder ++ AnsibleMain))
           (Some (folder ++ AnsibleConfigFile)) (Some (folder ++ AnsibleHostFile)) true
           None (Some (ApiHost (config c), ApiPort (config c)))).
Proof.
  intros folder evs. subst evs.
  unfold startCheckRunnerTicker, NewAnsibleCheckRunner, NewAnsibleMetaRunner, SetPlaybook.
  unfold bind, inspect, ret. cbn [fst snd fsys trace].
  destruct (exists_path (fsys w) _).
  2:{ cbn [snd]. erewrite since_app; [|done]. simpl. repeat split; try done.
      intros a ok Hin. apply list_elem_of_singleton in Hin. done. }
  cbn [fsys]. destruct (exists_path (fsys w) _).
  2:{ cbn [snd trace]. erewrite since_app; [|by rewrite <- app_assoc]. simpl.
      repeat split; try done.
      intros a ok Hin. apply elem_of_cons in Hin as [|Hin]; [done|].
      apply list_elem_of_singleton in Hin. done. }
  match goal with |- context [Repeat fuel (tick ?mr) ?i (c, ?cr) ?w'] =>
    destruct (Repeat_rounds mr i fuel c cr cr w' eq_refl eq_refl (or_introl eq_refl))
      as ([evs Etr] & M & C & F);
    rewrite (since_app _ _ _ Etr) in M, C, F;
    destruct (Repeat fuel (tick mr) i (c, cr) w') as [[[c' cr'] o] w'']
  end.
  cbn [fst snd trace] in *. rewrite <- !app_assoc in Etr.
  rewrite (since_app _ _ _ Etr). cbn [app countb metaRun checkRun tickFired].
  split; [done|]. split; [done|].
  intros a ok Hin. apply elem_of_cons in Hin as [|Hin]; [done|].
  apply elem_of_cons in Hin as [|Hin]; [done|].
  rewrite Forall_forall in F. exact (F _ Hin a eq_refl).
Qed.

(** ** A template without a playbook *)

(** X10. If the template lacks the check playbook or the meta playbook,
    then after a successful provisioning and a successful probe the
    goroutine ends at once: [Start] returns nil, whatever the fuel, and no
    playbook was run and no ticker was waited on. *)
Theorem Start_without_playbook (fuel : nat) (c : runnerService) (w : World) :
  wf_tnode ansibleFS ->
  tlookup ansibleFS AnsibleMain = None \/ tlookup ansibleFS AnsibleMeta = None ->
  (forall h a, fails env h (CIsWebServerUp a) = false) ->
  (forall h, fails env h CContextErr = false) ->
  (createAnsibleFiles (AnsibleFolder (config c)) w).1 = None ->
  let r := Start fuel c w in
  let evs := since w r.2 in
  r.1.2 = Returned None /\
  countb ranPlaybook evs = 0 /\ countb tickerWait evs = 0 /\
  last evs = Some (CWgDone, true).
Proof.
  intros Hwf Hmiss Hup Hctx Hp r evs. subst evs r.
  assert (Hgone : forall q, tlookup ansibleFS ("ansible" :: q) = None ->
            exists_path (fsys (createAnsibleFiles (AnsibleFolder (config c)) w).2)
              (AnsibleFolder (config c) ++ "ansible" :: q) = false).
  { intros q Hq.
    pose proof (createAnsibleFiles_copied (AnsibleFolder (config c)) w q Hwf Hp) as H.
    rewrite Hq in H. simpl in H. unfold exists_path. rewrite H.
    by destruct (AnsibleFolder (config c)). }
  destruct (emits_createAnsibleFiles (AnsibleFolder (config c)) w) as (evs_p & Ep & Fp).
  assert (Rp : countb ranPlaybook evs_p = 0).
  { eapply (countb_none (fun c => fsCall c = true)); [|exact Fp]. intros [] []; done. }
  assert (Tp : countb tickerWait evs_p = 0).
  { eapply (countb_none (fun c => fsCall c = true)); [|exact Fp]. intros [] []; done. }
  unfold Start, bind, ret, emit.
  destruct (createAnsibleFiles (AnsibleFolder (config c)) w) as [[e|] pw]; [done|].
  cbn [fst snd] in *. rewrite retry_Do_up by done. cbn [fst snd fsys trace].
  unfold startCheckRunnerTicker, NewAnsibleCheckRunner, NewAnsibleMetaRunner, SetPlaybook.
  unfold bind, inspect, ret. cbn [fst snd fsys trace config setTrentoApi].
  unfold AnsibleMain, AnsibleMeta in *.
  destruct (exists_path (fsys pw) (AnsibleFolder (config c) ++ ["ansible"; "check.yml"]))
    eqn:Emain.
  - destruct Hmiss as [Hmiss|Hmiss].
    { rewrite (Hgone ["check.yml"] Hmiss) in Emain. done. }
    cbn [fsys]. rewrite (Hgone ["meta.yml"] Hmiss). cbn [fst snd fsys trace].
    split; [done|].
    erewrite since_app; [|by rewrite Ep, <- !app_assoc].
    rewrite !countb_app, Rp, Tp. cbn. split; [done|]. split; [done|].
    by rewrite last_app.
  - cbn [fst snd fsys trace]. split; [done|].
    erewrite since_app; [|by rewrite Ep, <- !app_assoc].
    rewrite !countb_app, Rp, Tp. cbn. split; [done|]. split; [done|].
    by rewrite last_app.
Qed.

(** ** A catalog build without the meta playbook *)

(** X11. If the template has no meta playbook, [BuildCatalog] cannot
    succeed, whatever the environment and whatever the workspace held
    before: it returns an error, runs no playbook and leaves the service,
    with its readiness flag, as it was. *)
Theorem BuildCatalog_needs_meta (c : runnerService) (w : World) :
  wf_tnode ansibleFS ->
  tlookup ansibleFS AnsibleMeta = None ->
  let r := BuildCatalog c w in
  is_Some r.1.2 /\ r.1.1 = c /\ countb ranPlaybook (since w r.2) = 0.
Proof.
  intros Hwf Hmiss r. subst r.
  destruct (emits_createAnsibleFiles (AnsibleFolder (config c)) w) as (evs_p & Ep & Fp).
  assert (Rp : countb ranPlaybook evs_p = 0).
  { eapply (countb_none (fun c => fsCall c = true)); [|exact Fp]. intros [] []; done. }
  pose proof (createAnsibleFiles_copied (AnsibleFolder (config c)) w ["meta.yml"] Hwf) as Hgone.
  unfold AnsibleMeta in *. rewrite Hmiss in Hgone. cbn [copied] in Hgone.
  unfold BuildCatalog, bind, ret.
  destruct (createAnsibleFiles (AnsibleFolder (config c)) w) as [[e|] pw];
    cbn [fst snd] in *.
  { split; [by eexists|]. split; [done|]. erewrite since_app; [exact Rp|exact Ep]. }
  specialize (Hgone eq_refl).
  unfold NewAnsibleMetaRunner, SetPlaybook, AnsibleMeta, bind, inspect, ret.
  cbn [fst snd fsys trace]. unfold exists_path. rewrite Hgone.
  destruct (AnsibleFolder (config c) ++ ["ansible"; "meta.yml"]) eqn:E.
  { by destruct (AnsibleFolder (config c)). }
  cbn [fst snd fsys trace]. split; [by eexists|]. split; [done|].
  erewrite since_app; [|by rewrite Ep, <- !app_assoc].
  by rewrite countb_app, Rp.
Qed.

End Runner.

(** * Instances on the sample data *)

Lemma readiness_is_monotone_witness :
  let ops1 := [OpIsCatalogReady] in
  let ops2 := [OpBuildCatalog; OpIsCatalogReady] in
  let s1 := runOps Sample.flaky Sample.template ops1
              (NewRunnerService Sample.cfg).1 Sample.empty in
  let s2 := BuildCatalog Sample.flaky Sample.template s1.1.1 s1.2 in
  let s3 := runOps Sample.flaky Sample.template ops2 s2.1.1 s2.2 in
  s2.1.2 = None /\
  s3.1.2 !! 0 = Some (RError (Some (ErrPlaybook (AnsibleFolder Sample.cfg ++ AnsibleMeta)))) /\
  s3.1.2 !! 1 = Some (RBool true).
Proof.
  intros ops1 ops2 s1 s2 s3.
  assert (Hok : s2.1.2 = None) by (vm_compute; reflexivity).
  split; [exact Hok|]. split; [vm_compute; reflexivity|].
  apply (readiness_is_monotone Sample.flaky Sample.template Sample.cfg
           ops1 ops2 Sample.empty Hok).
  reflexivity.
Defined.

Lemma tick_never_writes_readiness_witness :
  isBuildCatalog (OpStart 2) = false /\
  IsCatalogReady
    (applyOp Sample.checksFail Sample.template (OpStart 2)
       (NewRunnerService Sample.cfg).1 Sample.empty).1.1 = false.
Proof.
  split; [reflexivity|].
  apply (tick_never_writes_readiness Sample.checksFail Sample.template
           (NewRunnerService Sample.cfg).1 Sample.empty).
  reflexivity.
Defined.

Lemma NewRunnerService_not_ready_witness :
  let ops := [OpIsCatalogReady; OpStart 1; OpIsCatalogReady] in
  forallb (fun op => negb (isBuildCatalog op)) ops = true /\
  IsCatalogReady
    (runOps Sample.calm Sample.template ops
       (NewRunnerService Sample.cfg).1 Sample.empty).1.1 = false.
Proof.
  intros ops. split; [reflexivity|].
  apply (NewRunnerService_not_ready Sample.calm Sample.template Sample.cfg).
  reflexivity.
Defined.

Lemma factories_bind_witness :
  let w := (createAnsibleFiles Sample.calm Sample.template
              (AnsibleFolder Sample.cfg) Sample.stale).2 in
  (NewAnsibleMetaRunner Sample.cfg w).1.2 = None /\
  (NewAnsibleMetaRunner Sample.cfg w).1.1 =
    mkAnsibleRunner (Some ["srv"; "trento"; "ansible"; "meta.yml"])
      (Some ["srv"; "trento"; "ansible"; "ansible.cfg"]) None false
      (Some ["srv"; "trento"; "ansible"; "catalog.json"]) None.
Proof.
  intros w. split; [vm_compute; reflexivity|].
  apply (factories_bind Sample.cfg w). vm_compute; reflexivity.
Defined.

Lemma BuildCatalog_steps_witness :
  let c := (NewRunnerService Sample.cfg).1 in
  let r := BuildCatalog Sample.calm Sample.template c Sample.stale in
  r.1.2 = None /\ IsCatalogReady r.1.1 = true.
Proof.
  intros c r. assert (H : r.1.2 = None) by (vm_compute; reflexivity).
  split; [exact H|].
  apply (BuildCatalog_steps Sample.calm Sample.template c Sample.stale). exact H.
Defined.



Lemma check_failure_is_only_observed_witness :
  let c := (NewRunnerService Sample.cfg).1 in
  let w := (createAnsibleFiles Sample.calm Sample.template
              (AnsibleFolder Sample.cfg) Sample.stale).2 in
  let mr := (NewAnsibleMetaRunner Sample.cfg w).1.1 in
  let cr := (NewAnsibleCheckRunner Sample.cfg w).1.1 in
  let r := tick Sample.checksFail mr (c, cr) w in
  since w r.2 !! 4 = Some (CRunPlaybook r.1.2, false) /\
  IsCatalogReady r.1.1 = IsCatalogReady c /\
  forall n, (Repeat Sample.checksFail n (tick Sample.checksFail mr)
               (Interval Sample.cfg) r.1 r.2).1.2 = Running.
Proof.
  intros c w mr cr r.
  assert (H : since w r.2 !! 4 = Some (CRunPlaybook r.1.2, false))
    by (vm_compute; reflexivity).
  split; [exact H|].
  destruct (check_failure_is_only_observed Sample.checksFail mr c cr w
              (Interval Sample.cfg) 0 H) as (_ & _ & Hready & _ & Hrun).
  split; [exact Hready|]. apply Hrun. reflexivity.
Defined.



(** The sample template is well formed, and on it the copy is exact when
    nothing fails. *)
Lemma sample_template_wf : wf_tnode Sample.template.
Proof.
  simpl. repeat split; try done; apply (bool_decide_unpack _); by vm_compute.
Qed.

Lemma createAnsibleFiles_mirrors_sample (q : path) :
  fsys (createAnsibleFiles Sample.calm Sample.template (AnsibleFolder Sample.cfg)
          Sample.stale).2 !! (AnsibleFolder Sample.cfg ++ "ansible" :: q) =
  node_of <$> tlookup Sample.template ("ansible" :: q).
Proof.
  apply (createAnsibleFiles_mirrors_template Sample.calm Sample.template).
  - reflexivity.
  - reflexivity.
  - exact sample_template_wf.
  - vm_compute; reflexivity.
Qed.

(** C3, where the code departs from it.  [createAnsibleFiles] drops the
    error of [fmt.Fprintf].  When the write of [meta.yml] fails, the call
    still returns nil, and the destination holds an empty [meta.yml] where
    the template has its playbook: success without a byte-identical tree. *)
Theorem createAnsibleFiles_drops_write_error :
  (createAnsibleFiles Sample.diskFull Sample.template (AnsibleFolder Sample.cfg)
     Sample.stale).1 = None /\
  trace (createAnsibleFiles Sample.diskFull Sample.template (AnsibleFolder Sample.cfg)
           Sample.stale).2 !! 8 =
    Some (CWrite ["srv"; "trento"; "ansible"; "meta.yml"]
            (Sample.b "- hosts: localhost"), false) /\
  fsys (createAnsibleFiles Sample.diskFull Sample.template (AnsibleFolder Sample.cfg)
          Sample.stale).2 !! ["srv"; "trento"; "ansible"; "meta.yml"] =
    Some (File []) /\
  node_of <$> tlookup Sample.template ["ansible"; "meta.yml"] =
    Some (File (Sample.b "- hosts: localhost")).
Proof. repeat split; vm_compute; reflexivity. Qed.

Lemma Start_blocks_when_healthy_sample (fuel : nat) :
  (Start Sample.calm Sample.template fuel (NewRunnerService Sample.cfg).1
     Sample.stale).1.2 = Running.
Proof.
  apply Start_blocks_when_healthy;
    first [exact sample_template_wf | by eexists | by vm_compute | reflexivity].
Qed.

(** ** Provisioning *)

Lemma noPlaybooks_wf : wf_tnode Scenario.noPlaybooks.
Proof.
  simpl. repeat split; try done; apply (bool_decide_unpack _); by vm_compute.
Qed.

Lemma createAnsibleFiles_frame_witness :
  let p := ["srv"; "trento"; "ansible.bak"] in
  fsys (createAnsibleFiles Scenario.createFails Sample.template ["srv"; "trento"]
          Scenario.busy).2 !! p = fsys Scenario.busy !! p.
Proof.
  intros p.
  apply (createAnsibleFiles_frame Scenario.createFails Sample.template
           ["srv"; "trento"] Scenario.busy p);
    apply (bool_decide_unpack _); vm_compute; exact I.
Defined.



Lemma createAnsibleFiles_result_witness :
  let r := createAnsibleFiles Sample.calm Sample.template ["srv"; "trento"]
             Scenario.busy in
  let p := ["srv"; "trento"; "ansible"; "roles"; "checks"; "main.yml"] in
  r.1 = None /\
  fsys r.2 !! p =
    if bool_decide ((["srv"; "trento"] ++ ["ansible"]) `prefix_of` p)
    then node_of <$> tlookup Sample.template (drop (length ["srv"; "trento"]) p)
    else if bool_decide (p `prefix_of` ["srv"; "trento"] ++ ["ansible"] /\ p <> [])
         then Some Dir
         else fsys Scenario.busy !! p.
Proof.
  intros r p.
  assert (Hr : r.1 = None) by (vm_compute; reflexivity).
  split; [exact Hr|].
  apply (createAnsibleFiles_result Sample.calm Sample.template ["srv"; "trento"]
           (fun _ _ _ => eq_refl) (fun _ _ => eq_refl) Scenario.busy p
           sample_template_wf Hr).
Defined.

Lemma createAnsibleFiles_idempotent_witness :
  let r1 := createAnsibleFiles Sample.calm Sample.template ["srv"; "trento"]
              Scenario.busy in
  let r2 := createAnsibleFiles Sample.calm Sample.template ["srv"; "trento"] r1.2 in
  r1.1 = None /\ r2.1 = None /\ fsys r2.2 = fsys r1.2.
Proof.
  intros r1 r2.
  assert (H1 : r1.1 = None) by (vm_compute; reflexivity).
  assert (H2 : r2.1 = None) by (vm_compute; reflexivity).
  split; [exact H1|]. split; [exact H2|].
  apply (createAnsibleFiles_idempotent Sample.calm Sample.template ["srv"; "trento"]
           (fun _ _ _ => eq_refl) (fun _ _ => eq_refl) Scenario.busy
           sample_template_wf H1 H2).
Defined.

(** ** Start, the loop and the catalog build *)

Lemma Start_gated_by_probe_witness :
  let c := (NewRunnerService Sample.cfg).1 in
  let evs := since Sample.stale
               (Start Sample.serverDown Sample.template 3 c Sample.stale).2 in
  countb probeOk evs = 0 /\ Forall (fun e => ~ lateCall e.1) evs.
Proof.
  intros c evs.
  assert (H : countb probeOk evs = 0) by (vm_compute; reflexivity).
  split; [exact H|].
  exact (proj1 (Start_gated_by_probe Sample.serverDown Sample.template 3 c
                  Sample.stale) H).
Defined.

Lemma Start_wait_bound_witness :
  let c := (NewRunnerService Sample.cfg).1 in
  let r := Start Scenario.serverDownJitter Sample.template 3 c Sample.stale in
  (createAnsibleFiles Scenario.serverDownJitter Sample.template
     (AnsibleFolder (config c)) Sample.stale).1 = None /\
  r.1.2 = Returned (Some ErrServerNotAvailable) /\
  (254 * Second <= waitTotal (since Sample.stale r.2))%Z.
Proof.
  intros c r.
  assert (Hp : (createAnsibleFiles Scenario.serverDownJitter Sample.template
                  (AnsibleFolder (config c)) Sample.stale).1 = None)
    by (vm_compute; reflexivity).
  assert (Hr : r.1.2 = Returned (Some ErrServerNotAvailable))
    by (vm_compute; reflexivity).
  split; [exact Hp|]. split; [exact Hr|].
  exact (proj2 (Start_wait_bound Scenario.serverDownJitter Sample.template 3 c
                  Sample.stale) Hp Hr).
Defined.

Lemma loop_rounds_witness :
  let c := (NewRunnerService Sample.cfg).1 in
  let w := (createAnsibleFiles Sample.calm Sample.template
              (AnsibleFolder Sample.cfg) Sample.stale).2 in
  let evs := since w (startCheckRunnerTicker Scenario.cancelledLater 5 c w).2 in
  let a := mkAnsibleRunner (Some ["srv"; "trento"; "ansible"; "check.yml"])
             (Some ["srv"; "trento"; "ansible"; "ansible.cfg"])
             (Some ["srv"; "trento"; "ansible"; "ansible_hosts"]) true None
             (Some ("localhost", 8000%Z)) in
  (CRunPlaybook a, true) ∈ evs /\
  (a = mkAnsibleRunner (Some (AnsibleFolder (config c) ++ AnsibleMeta))
         (Some (AnsibleFolder (config c) ++ AnsibleConfigFile)) None false
         (Some (AnsibleFolder (config c) ++ CatalogDestinationFile)) None \/
   a = mkAnsibleRunner (Some (AnsibleFolder (config c) ++ AnsibleMain))
         (Some (AnsibleFolder (config c) ++ AnsibleConfigFile))
         (Some (AnsibleFolder (config c) ++ AnsibleHostFile)) true None
         (Some (ApiHost (config c), ApiPort (config c)))).
Proof.
  intros c w evs a.
  assert (Hin : (CRunPlaybook a, true) ∈ evs).
  { apply (list_elem_of_lookup_2 evs 7). vm_compute. reflexivity. }
  split; [exact Hin|].
  destruct (loop_rounds Scenario.cancelledLater 5 c w) as (_ & _ & H).
  exact (H a true Hin).
Defined.

Lemma Start_without_playbook_witness :
  let c := (NewRunnerService Sample.cfg).1 in
  let r := Start Sample.calm Scenario.noPlaybooks 3 c Sample.stale in
  let evs := since Sample.stale r.2 in
  tlookup Scenario.noPlaybooks AnsibleMain = None /\
  (createAnsibleFiles Sample.calm Scenario.noPlaybooks (AnsibleFolder (config c))
     Sample.stale).1 = None /\
  r.1.2 = Returned None /\
  countb ranPlaybook evs = 0 /\ countb tickerWait evs = 0 /\
  last evs = Some (CWgDone, true).
Proof.
  intros c r evs.
  assert (Hl : tlookup Scenario.noPlaybooks AnsibleMain = None) by reflexivity.
  assert (Hp : (createAnsibleFiles Sample.calm Scenario.noPlaybooks
                  (AnsibleFolder (config c)) Sample.stale).1 = None)
    by (vm_compute; reflexivity).
  split; [exact Hl|]. split; [exact Hp|].
  apply (Start_without_playbook Sample.calm Scenario.noPlaybooks 3 c Sample.stale
           noPlaybooks_wf (or_introl Hl) (fun _ _ => eq_refl) (fun _ => eq_refl) Hp).
Defined.

Lemma BuildCatalog_needs_meta_witness :
  let c := (NewRunnerService Sample.cfg).1 in
  let r := BuildCatalog Sample.calm Scenario.noPlaybooks c Sample.stale in
  tlookup Scenario.noPlaybooks AnsibleMeta = None /\
  is_Some r.1.2 /\ r.1.1 = c /\ countb ranPlaybook (since Sample.stale r.2) = 0.
Proof.
  intros c r.
  assert (Hl : tlookup Scenario.noPlaybooks AnsibleMeta = None) by reflexivity.
  split; [exact Hl|].
  apply (BuildCatalog_needs_meta Sample.calm Scenario.noPlaybooks c Sample.stale
           noPlaybooks_wf Hl).
Defined.
